(** * Quick order start workflow: a shallow embedding of
      [tracker/views_start_order.py] and the properties of its views.

    The views are Django request handlers.  They are embedded as pure
    functions over an explicit database state: a handler takes the request
    context (the authenticated user, the branch [get_user_branch] resolves
    for it, the clock), the request payload and the database, and returns
    the JSON response together with the database it leaves behind.  An
    exception raised inside [transaction.atomic()] rolls the database back,
    so the handler then returns the database it was given.

    Python [str] values are embedded as [string], read as UTF-8 text, with
    the string methods the views call written out in [PyStr]; the rules for
    letter case and white space are those of the ASCII characters, and the
    bytes of other characters are left as they are. *)

From Stdlib Require Import ZArith List String Ascii Bool Lia.
Import ListNotations.

Local Open Scope string_scope.
Local Open Scope Z_scope.

(* ------------------------------------------------------------------ *)
(** ** Python string primitives used by the views *)

Module PyStr.

(** [str.isspace] on one character (ASCII range). *)
Definition is_space (c : ascii) : bool :=
  let n := nat_of_ascii c in
  ((9 <=? n) && (n <=? 13) || (28 <=? n) && (n <=? 32))%nat.

Fixpoint lstrip (s : string) : string :=
  match s with
  | EmptyString => EmptyString
  | String c r => if is_space c then lstrip r else s
  end.

Fixpoint rstrip (s : string) : string :=
  match s with
  | EmptyString => EmptyString
  | String c r =>
      match rstrip r with
      | EmptyString => if is_space c then EmptyString else String c EmptyString
      | r' => String c r'
      end
  end.

(** [s.strip()] *)
Definition strip (s : string) : string := rstrip (lstrip s).

Definition upper_char (c : ascii) : ascii :=
  let n := nat_of_ascii c in
  if ((97 <=? n) && (n <=? 122))%nat then ascii_of_nat (n - 32) else c.

Definition lower_char (c : ascii) : ascii :=
  let n := nat_of_ascii c in
  if ((65 <=? n) && (n <=? 90))%nat then ascii_of_nat (n + 32) else c.

Fixpoint map_chars (f : ascii -> ascii) (s : string) : string :=
  match s with
  | EmptyString => EmptyString
  | String c r => String (f c) (map_chars f r)
  end.

(** [s.upper()] and [s.lower()] *)
Definition upper : string -> string := map_chars upper_char.
Definition lower : string -> string := map_chars lower_char.

(** Truth value of a [str]: the empty string is falsy. *)
Definition truthy (s : string) : bool :=
  match s with EmptyString => false | _ => true end.

(** [s.startswith(p)] *)
Fixpoint startswith (s p : string) {struct p} : bool :=
  match p with
  | EmptyString => true
  | String a p' =>
      match s with
      | EmptyString => false
      | String b s' => Ascii.eqb a b && startswith s' p'
      end
  end.

(** Django's [__iexact] lookup: equality up to letter case. *)
Definition iexact (a b : string) : bool := String.eqb (upper a) (upper b).

Definition newline : ascii := ascii_of_nat 10.
Definition comma : ascii := ascii_of_nat 44.

(** [s.split(sep)] for a one-character separator: never the empty list. *)
Fixpoint split_on (sep : ascii) (s : string) : list string :=
  match s with
  | EmptyString => [EmptyString]
  | String c r =>
      if Ascii.eqb c sep then EmptyString :: split_on sep r
      else match split_on sep r with
           | h :: t => String c h :: t
           | [] => [String c EmptyString]
           end
  end.

(** [sep.join(l)] *)
Fixpoint join (sep : string) (l : list string) : string :=
  match l with
  | [] => EmptyString
  | [x] => x
  | x :: r => x ++ sep ++ join sep r
  end.

Definition is_digit (c : ascii) : bool :=
  let n := nat_of_ascii c in ((48 <=? n) && (n <=? 57))%nat.

Definition digit_val (c : ascii) : Z := Z.of_nat (nat_of_ascii c) - 48.

Definition underscore : ascii := ascii_of_nat 95.

(** The digits of a decimal literal, left to right.  [prev_digit] tells
    whether the previous character was a digit: an underscore is accepted
    only between two digits.  [None] is Python's [ValueError]. *)
Fixpoint parse_digits (prev_digit : bool) (acc : Z) (s : string) : option Z :=
  match s with
  | EmptyString => if prev_digit then Some acc else None
  | String c r =>
      if is_digit c then parse_digits true (10 * acc + digit_val c) r
      else if Ascii.eqb c underscore && prev_digit then
        match r with
        | String d _ => if is_digit d then parse_digits false acc r else None
        | EmptyString => None
        end
      else None
  end.

(** [int(s)] on a [str]: surrounding whitespace, an optional sign, then
    decimal digits.  [None] stands for the [ValueError] the views catch. *)
Definition parse_int (s : string) : option Z :=
  match strip s with
  | String "+" r => parse_digits false 0 r
  | String "-" r => option_map Z.opp (parse_digits false 0 r)
  | r => parse_digits false 0 r
  end.

End PyStr.

(* ------------------------------------------------------------------ *)
(** ** The models the views read and write

    [tracker/models.py] is not part of this file's source; the records carry
    the fields the views touch, with Django's nullable columns as [option]. *)

(** A branch as [get_user_branch] returns it: [None] for a user without one.
    A filter [branch=None] is Django's [IS NULL], so equality on [option]
    is the comparison the queries make. *)
Definition Branch := option Z.

Definition branch_eqb (a b : Branch) : bool :=
  match a, b with
  | Some x, Some y => x =? y
  | None, None => true
  | _, _ => false
  end.

Record Customer := mkCustomer {
  c_id : Z;
  c_branch : Branch;
  c_full_name : string;
  c_phone : string;
  c_customer_type : string;
  c_personal_subtype : option string;
  c_organization_name : option string;
  c_tax_number : option string;
  c_email : option string;
  c_address : option string
}.

Record Vehicle := mkVehicle {
  v_id : Z;
  v_customer : Z;
  v_plate_number : string;
  v_make : option string;
  v_model : option string;
  v_vehicle_type : option string
}.

Record Order := mkOrder {
  o_id : Z;
  o_order_number : string;
  o_customer : Z;
  o_vehicle : option Z;
  o_branch : Branch;
  o_type : string;
  o_status : string;
  o_created_at : Z;
  o_started_at : option Z;
  o_completed_at : option Z;
  o_description : option string;
  o_priority : string;
  o_estimated_duration : option Z;
  o_actual_duration : option Z;
  o_item_name : option string;
  o_brand : option string;
  o_quantity : option Z;
  o_overrun_reason : option string;
  o_overrun_reported_at : option Z;
  o_overrun_reported_by : option Z
}.

Record ServiceType := mkServiceType {
  st_name : string;
  st_estimated_minutes : option Z;
  st_is_active : bool
}.

Record ServiceAddon := mkServiceAddon {
  sa_name : string;
  sa_estimated_minutes : option Z;
  sa_is_active : bool
}.

Record InventoryItem := mkInventoryItem {
  ii_id : Z;
  ii_name : string;
  ii_brand : option string
}.

(** The database: one list per table, rows in primary-key order (a created
    row takes the next key and goes last).  [catalogue_raises] stands for
    the service catalogue being unreadable: the lookup of service types and
    add-ons then raises, which [api_start_order] catches. *)
Record DB := mkDB {
  customers : list Customer;
  vehicles : list Vehicle;
  orders : list Order;
  service_types : list ServiceType;
  service_addons : list ServiceAddon;
  inventory_items : list InventoryItem;
  catalogue_raises : bool
}.

(* ------------------------------------------------------------------ *)
(** ** Queries *)

Module Query.

(** The key an auto-increment column gives the next row. *)
Definition next_id {A : Type} (pk : A -> Z) (rows : list A) : Z :=
  1 + fold_right Z.max 0 (map pk rows).

(** [QuerySet.first()] on rows already in the order asked for. *)
Definition first {A : Type} (rows : list A) : option A := hd_error rows.

Definition in_list (s : string) (l : list string) : bool :=
  existsb (String.eqb s) l.

Definition customer_by_id (db : DB) (k : Z) : option Customer :=
  find (fun c => c_id c =? k) (customers db).

(** [Customer.objects.filter(id=k, branch=b)], as [get_object_or_404]
    reads it; [None] is the [Http404] it raises. *)
Definition customer_in_branch (db : DB) (k : Z) (b : Branch) : option Customer :=
  find (fun c => (c_id c =? k) && branch_eqb (c_branch c) b) (customers db).

(** [Order.objects.filter(id=k, branch=b)], as [get_object_or_404] reads it. *)
Definition order_in_branch (db : DB) (k : Z) (b : Branch) : option Order :=
  find (fun o => (o_id o =? k) && branch_eqb (o_branch o) b) (orders db).

(** [Vehicle.objects.filter(plate_number__iexact=plate,
    customer__branch=b).select_related('customer')]: each vehicle comes
    with the customer row the join found. *)
Definition vehicles_by_plate (db : DB) (plate : string) (b : Branch)
  : list (Vehicle * Customer) :=
  flat_map
    (fun v =>
       match customer_by_id db (v_customer v) with
       | Some c =>
           if PyStr.iexact (v_plate_number v) plate && branch_eqb (c_branch c) b
           then [(v, c)] else []
       | None => []
       end)
    (vehicles db).

Definition vehicle_is (k : Z) (o : Order) : bool :=
  match o_vehicle o with
  | Some k' => k' =? k
  | None => false
  end.

(** [Order.objects.filter(vehicle=v, status='created')] *)
Definition created_orders_of (db : DB) (vehicle : Z) : list Order :=
  filter (fun o => vehicle_is vehicle o && String.eqb (o_status o) "created")
         (orders db).

(** [.order_by('-created_at').first()]: the row created last; of two rows
    created at the same instant the one with the smaller key. *)
Fixpoint latest (rows : list Order) : option Order :=
  match rows with
  | [] => None
  | o :: r =>
      match latest r with
      | None => Some o
      | Some m => if o_created_at m <=? o_created_at o then Some o else Some m
      end
  end.

End Query.

(* ------------------------------------------------------------------ *)
(** ** The create-or-get services *)

Module Services.

Definition opt_string_eqb (a b : option string) : bool :=
  match a, b with
  | Some x, Some y => String.eqb x y
  | None, None => true
  | _, _ => false
  end.

(** Modelled from the spec: [CustomerService.create_or_get_customer] lives
    in [tracker/services.py], which is not in the source given.  The spec
    has customers unique per branch on name, phone and the organisation
    fields, and the service with create-or-get semantics: the customer of
    the branch with these fields is returned when there is one, and
    created otherwise. *)
Definition create_or_get_customer (db : DB) (branch : Branch)
    (full_name phone customer_type : string)
    (personal_subtype organization_name tax_number email address : option string)
  : Customer * DB :=
  match find (fun c => branch_eqb (c_branch c) branch
                       && String.eqb (c_full_name c) full_name
                       && String.eqb (c_phone c) phone
                       && opt_string_eqb (c_organization_name c) organization_name
                       && opt_string_eqb (c_tax_number c) tax_number)
             (customers db) with
  | Some c => (c, db)
  | None =>
      let c := mkCustomer (Query.next_id c_id (customers db)) branch full_name phone
                          customer_type personal_subtype organization_name
                          tax_number email address in
      (c, mkDB (customers db ++ [c]) (vehicles db) (orders db) (service_types db)
               (service_addons db) (inventory_items db) (catalogue_raises db))
  end.

(** Modelled from the spec: [VehicleService.create_or_get_vehicle] lives in
    [tracker/services.py] too.  The spec has vehicles created or fetched
    keyed on the plate under the customer, the plate compared without
    regard to letter case. *)
Definition create_or_get_vehicle (db : DB) (customer : Customer)
    (plate_number : string) (make model : option string) : Vehicle * DB :=
  match find (fun v => (v_customer v =? c_id customer)
                       && PyStr.iexact (v_plate_number v) plate_number)
             (vehicles db) with
  | Some v => (v, db)
  | None =>
      let v := mkVehicle (Query.next_id v_id (vehicles db)) (c_id customer)
                         plate_number make model None in
      (v, mkDB (customers db) (vehicles db ++ [v]) (orders db) (service_types db)
               (service_addons db) (inventory_items db) (catalogue_raises db))
  end.

End Services.

(* ------------------------------------------------------------------ *)
(** ** Requests and responses *)

(** What a view reads from the request besides its payload:
    [request.user], the branch [get_user_branch] gives for it,
    [timezone.now()], and the order number [Order.save()] would generate for
    a new row (generated by the model, which is not in the source given). *)
Record Ctx := mkCtx {
  user : Z;
  user_branch : Branch;
  now : Z;
  new_order_number : string
}.

(** The calendar date of an instant, in days (instants are in seconds). *)
Definition date_of (t : Z) : Z := t / 86400.

Inductive Response :=
  (** [{'success': False, 'error': error}] with the HTTP status *)
| ErrorResponse (status : Z) (error : string)
  (** [api_start_order]: [{'success': True, 'order_id': ..., ...}] *)
| OrderStarted (status : Z) (order_id : Z) (order_number plate_number : string)
               (started_at : Z) (existing_order : bool)
  (** [api_start_order]: [{'success': True, 'existing_customer': ...,
      'existing_vehicle': ...}], status 200 *)
| ExistingCustomer (customer : Customer) (vehicle : Vehicle)
  (** [api_check_plate]: [{'found': False}] *)
| PlateNotFound
  (** [api_check_plate]: [{'found': True, 'customer': ..., 'vehicle': ...}] *)
| PlateFound (customer : Customer) (vehicle : Vehicle)
  (** [{'success': True, 'message': ..., 'order_id': ..., 'order_number': ...}] *)
| OrderSaved (status : Z) (message : string) (order_id : Z) (order_number : string)
  (** [{'success': True}] *)
| SuccessResponse
  (** an HTTP redirect *)
| HttpRedirect (target : string)
  (** a rendered page *)
| Page (template : string).


Definition response_status (r : Response) : Z :=
  match r with
  | ErrorResponse s _ => s
  | OrderStarted s _ _ _ _ _ => s
  | OrderSaved s _ _ _ => s
  | HttpRedirect _ => 302
  | _ => 200
  end.

(** [x or ''] on an optional string. *)
Definition or_empty (x : option string) : string :=
  match x with Some s => s | None => EmptyString end.

(** [x or None] on a string. *)
Definition or_none (s : string) : option string :=
  if PyStr.truthy s then Some s else None.

(** Truth value of an optional integer: [None] and [0] are falsy. *)
Definition truthy_int (x : option Z) : bool :=
  match x with
  | Some n => negb (n =? 0)
  | None => false
  end.

(* ------------------------------------------------------------------ *)
(** ** The views *)

Module Views.

Import PyStr Query Services.

(** *** [api_start_order] *)

(** The JSON object of the request body, field by field as the view reads
    it with [data.get]. *)
Record StartOrderData := mkStartOrderData {
  so_plate_number : option string;
  so_order_type : option string;          (* default ['service'] *)
  so_use_existing_customer : bool;        (* default [False] *)
  so_existing_customer_id : option Z;
  so_service_selection : list string;     (* [... or []] *)
  so_estimated_duration : option Z
}.

Definition default (d : string) (x : option string) : string :=
  match x with Some s => s | None => d end.

Definition nonempty {A : Type} (l : list A) : bool :=
  match l with [] => false | _ => true end.

Definition int_or_0 (m : option Z) : Z :=
  match m with Some n => n | None => 0 end.

Definition sum_Z (l : list Z) : Z := fold_right Z.add 0 l.

(** [sum(int(s.estimated_minutes or 0) for s in svc_objs)
     + sum(int(a.estimated_minutes or 0) for a in add_objs)] with
    [svc_objs = ServiceType.objects.filter(name__in=sel, is_active=True)]
    and [add_objs = ServiceAddon.objects.filter(name__in=sel)]. *)
Definition total_minutes (db : DB) (sel : list string) : Z :=
  sum_Z (map (fun s => int_or_0 (st_estimated_minutes s))
             (filter (fun s => in_list (st_name s) sel && st_is_active s)
                     (service_types db)))
  + sum_Z (map (fun a => int_or_0 (sa_estimated_minutes a))
               (filter (fun a => in_list (sa_name a) sel) (service_addons db))).

(** The [try: ... except Exception: pass] block that estimates the
    duration from the selected services. *)
Definition estimate_duration (db : DB) (order_type : string)
    (sel : list string) (estimated_duration : option Z) : option Z :=
  if nonempty sel && String.eqb order_type "service" then
    if catalogue_raises db then estimated_duration
    else
      let total := total_minutes db sel in
      if negb (total =? 0) then Some total else estimated_duration
  else estimated_duration.

Definition start_description (plate_number : string) (sel : list string) : string :=
  let desc := "Order started for " ++ plate_number in
  if nonempty sel then desc ++ ": " ++ join ", " sel else desc.

Definition add_order (db : DB) (o : Order) : DB :=
  mkDB (customers db) (vehicles db) (orders db ++ [o]) (service_types db)
       (service_addons db) (inventory_items db) (catalogue_raises db).

(** [Order.objects.create(...)] of the start and modal views: the fields
    they pass, the others at their defaults. *)
Definition new_order (ctx : Ctx) (db : DB) (customer : Customer)
    (vehicle : option Z) (type description priority : string)
    (estimated_duration : option Z) : Order :=
  mkOrder (next_id o_id (orders db)) (new_order_number ctx) (c_id customer)
          vehicle (user_branch ctx) type "created" (now ctx) (Some (now ctx))
          None (Some description) priority estimated_duration None
          None None None None None None.

(** The response built from [order.started_at.isoformat()]: an order
    without [started_at] makes it raise, which the view reports as 500. *)
Definition started_response (status : Z) (o : Order) (plate_number : string)
    (existing : bool) : Response :=
  match o_started_at o with
  | Some t => OrderStarted status (o_id o) (o_order_number o) plate_number t existing
  | None => ErrorResponse 500 "Server error: 'NoneType' object has no attribute 'isoformat'"
  end.

(** The customer [api_start_order] uses: the one the caller chose, or the
    placeholder customer of the plate.  [None] is the [Http404] of a
    chosen customer that is not in the user's branch.  The view falls back
    on [Customer.objects.get_or_create] when the customer service raises;
    the service as it is modelled here always answers. *)
Definition start_order_customer (ctx : Ctx) (data : StartOrderData)
    (plate_number : string) (db : DB) : option (Customer * DB) :=
  if so_use_existing_customer data && truthy_int (so_existing_customer_id data) then
    match customer_in_branch db (int_or_0 (so_existing_customer_id data))
                             (user_branch ctx) with
    | Some customer => Some (customer, db)
    | None => None
    end
  else
    Some (create_or_get_customer db (user_branch ctx)
            ("Plate " ++ plate_number) ("PLATE_" ++ plate_number) "personal"
            None None None None None).

(** The part of [api_start_order] inside [transaction.atomic()], and the
    response after it. *)
Definition start_order_commit (ctx : Ctx) (data : StartOrderData)
    (plate_number order_type : string) (db : DB) : Response * DB :=
  let resolved := start_order_customer ctx data plate_number db in
  match resolved with
  | None => (ErrorResponse 500 "Server error: No Customer matches the given query.", db)
  | Some (customer, db1) =>
      let (vehicle, db2) := create_or_get_vehicle db1 customer plate_number None None in
      let estimated_duration :=
        estimate_duration db2 order_type (so_service_selection data)
                          (so_estimated_duration data) in
      let desc := start_description plate_number (so_service_selection data) in
      match first (created_orders_of db2 (v_id vehicle)) with
      | Some existing_order =>
          (started_response 201 existing_order plate_number false, db2)
      | None =>
          let order :=
            new_order ctx db2 customer (Some (v_id vehicle)) order_type desc "medium"
                      (if truthy_int estimated_duration then estimated_duration
                       else None) in
          (started_response 201 order plate_number false, add_order db2 order)
      end
  end.

(** [body] is [None] when the request body is not JSON. *)
Definition api_start_order (ctx : Ctx) (body : option StartOrderData) (db : DB)
  : Response * DB :=
  match body with
  | None => (ErrorResponse 400 "Invalid JSON", db)
  | Some data =>
      let plate_number := upper (strip (or_empty (so_plate_number data))) in
      let order_type := default "service" (so_order_type data) in
      let use_existing := so_use_existing_customer data in
      let existing_customer_id := so_existing_customer_id data in
      if negb (truthy plate_number) then
        (ErrorResponse 400 "Vehicle plate number is required", db)
      else if negb (in_list order_type ["service"; "sales"; "inquiry"]) then
        (ErrorResponse 400 "Invalid order type", db)
      else
        let unconfirmed := negb use_existing && negb (truthy_int existing_customer_id) in
        match first (vehicles_by_plate db plate_number (user_branch ctx)) with
        | Some (existing_vehicle, existing_customer) =>
            match latest (created_orders_of db (v_id existing_vehicle)) with
            | Some existing_order =>
                if unconfirmed then
                  (started_response 200 existing_order plate_number true, db)
                else start_order_commit ctx data plate_number order_type db
            | None =>
                if unconfirmed then
                  (ExistingCustomer existing_customer existing_vehicle, db)
                else start_order_commit ctx data plate_number order_type db
            end
        | None => start_order_commit ctx data plate_number order_type db
        end
  end.

(** *** [api_check_plate] *)

(** [plate] is the ['plate_number'] entry of the JSON body, [None] when it
    is absent or null. *)
Definition api_check_plate (ctx : Ctx) (plate : option string) (db : DB) : Response :=
  let plate_number := upper (strip (or_empty plate)) in
  if negb (truthy plate_number) then PlateNotFound
  else
    match first (vehicles_by_plate db plate_number (user_branch ctx)) with
    | None => PlateNotFound
    | Some (vehicle, customer) => PlateFound customer vehicle
    end.

(** *** [started_order_detail]: the [update_order_details] and
    [complete_order] actions *)

Definition nl : string := String newline EmptyString.

(** [Order.save()]: the row with the order's key is overwritten. *)
Definition save_order (db : DB) (o : Order) : DB :=
  mkDB (customers db) (vehicles db)
       (map (fun x => if o_id x =? o_id o then o else x) (orders db))
       (service_types db) (service_addons db) (inventory_items db)
       (catalogue_raises db).

Definition with_description (o : Order) (d : option string) : Order :=
  mkOrder (o_id o) (o_order_number o) (o_customer o) (o_vehicle o) (o_branch o)
          (o_type o) (o_status o) (o_created_at o) (o_started_at o)
          (o_completed_at o) d (o_priority o) (o_estimated_duration o)
          (o_actual_duration o) (o_item_name o) (o_brand o) (o_quantity o)
          (o_overrun_reason o) (o_overrun_reported_at o) (o_overrun_reported_by o).

Definition with_estimated_duration (o : Order) (e : option Z) : Order :=
  mkOrder (o_id o) (o_order_number o) (o_customer o) (o_vehicle o) (o_branch o)
          (o_type o) (o_status o) (o_created_at o) (o_started_at o)
          (o_completed_at o) (o_description o) (o_priority o) e
          (o_actual_duration o) (o_item_name o) (o_brand o) (o_quantity o)
          (o_overrun_reason o) (o_overrun_reported_at o) (o_overrun_reported_by o).

Definition with_item (o : Order) (name brand : option string) (q : option Z) : Order :=
  mkOrder (o_id o) (o_order_number o) (o_customer o) (o_vehicle o) (o_branch o)
          (o_type o) (o_status o) (o_created_at o) (o_started_at o)
          (o_completed_at o) (o_description o) (o_priority o)
          (o_estimated_duration o) (o_actual_duration o) name brand q
          (o_overrun_reason o) (o_overrun_reported_at o) (o_overrun_reported_by o).

Definition with_completion (o : Order) (t : Z) : Order :=
  mkOrder (o_id o) (o_order_number o) (o_customer o) (o_vehicle o) (o_branch o)
          (o_type o) "completed" (o_created_at o) (o_started_at o)
          (Some t) (o_description o) (o_priority o)
          (o_estimated_duration o) (o_actual_duration o) (o_item_name o)
          (o_brand o) (o_quantity o)
          (o_overrun_reason o) (o_overrun_reported_at o) (o_overrun_reported_by o).

(** A line that [update_order_details] takes for one it wrote earlier. *)
Definition is_services_line (l : string) : bool :=
  let t := lower (strip l) in
  startswith t "services:" || startswith t "add-ons:"
  || startswith t "tire services:".

Definition services_line (type : string) (services : list string) : string :=
  let svc_text := join ", " services in
  if String.eqb type "sales" then "Tire Services: " ++ svc_text
  else "Services: " ++ svc_text.

(** The description [update_order_details] stores for a non-empty list of
    selected services. *)
Definition updated_description (type : string) (description : option string)
    (services : list string) : string :=
  let base_desc := or_empty description in
  let lines := filter (fun l => negb (is_services_line l))
                      (split_on newline base_desc) in
  let lines := (lines ++ [services_line type services])%list in
  join nl (filter (fun l => truthy (strip l)) lines).

(** The item and brand of a sales order, from [item_id] and
    [item_quantity]; a lookup that fails is logged and changes nothing. *)
Definition update_item (db : DB) (o : Order) (item_id item_quantity : option string)
  : Order :=
  if String.eqb (o_type o) "sales" && truthy (or_empty item_id) then
    match parse_int (or_empty item_id) with
    | None => o
    | Some k =>
        match find (fun i => ii_id i =? k) (inventory_items db) with
        | None => o
        | Some item =>
            let brand := match ii_brand item with
                         | Some b => b
                         | None => "Unbranded"
                         end in
            let quantity :=
              if truthy (or_empty item_quantity) then
                match parse_int (or_empty item_quantity) with
                | Some q => Some q
                | None => o_quantity o
                end
              else o_quantity o in
            with_item o (Some (ii_name item)) (Some brand) quantity
        end
    end
  else o.

(** The [update_order_details] action on the order the view loaded:
    [services] is [request.POST.getlist('services')], the others the
    fields of the same names. *)
Definition update_order_details (db : DB) (order : Order) (services : list string)
    (estimated_duration item_id item_quantity : option string) : Order :=
  let order := update_item db order item_id item_quantity in
  let order :=
    if nonempty services then
      with_description order
        (Some (updated_description (o_type order) (o_description order) services))
    else order in
  if truthy (or_empty estimated_duration) then
    match parse_int (or_empty estimated_duration) with
    | Some n => with_estimated_duration order (Some n)
    | None => order
    end
  else order.

Inductive Action :=
| UpdateOrderDetails (services : list string)
                     (estimated_duration item_id item_quantity : option string)
| CompleteOrder.

(** A POST to [started_order_detail] with one of the two actions; [None]
    is the [Http404] of an order that is not in the user's branch. *)
Definition started_order_detail (ctx : Ctx) (order_id : Z) (action : Action)
    (db : DB) : option (Response * DB) :=
  match order_in_branch db order_id (user_branch ctx) with
  | None => None
  | Some order =>
      match action with
      | UpdateOrderDetails services est item_id item_quantity =>
          Some (HttpRedirect "tracker:started_order_detail",
                save_order db (update_order_details db order services est
                                                    item_id item_quantity))
      | CompleteOrder =>
          Some (HttpRedirect "tracker:started_orders_dashboard",
                save_order db (with_completion order (now ctx)))
      end
  end.

(** *** [api_update_order_from_extraction] and
    [api_create_order_from_modal] *)

(** The form the two views read, one entry per local variable of the
    views; [None] is a key the request does not carry.  The extraction
    view reads the keys prefixed with [extracted_], and [order_id]; the
    modal view reads the unprefixed keys, and [order_type]. *)
Record Form := mkForm {
  f_order_id : option string;
  f_order_type : option string;
  f_customer_type : option string;
  f_personal_subtype : option string;
  f_organization_name : option string;
  f_tax_number : option string;
  f_customer_name : option string;
  f_phone : option string;
  f_email : option string;
  f_address : option string;
  f_description : option string;
  f_estimated_duration : option string;
  f_priority : option string;
  f_services : option string;
  f_plate_number : option string;
  f_vehicle_make : option string;
  f_vehicle_model : option string
}.

(** [request.POST.get(key, d).strip()] *)
Definition field (d : string) (x : option string) : string := strip (default d x).

Definition customer_types : list string := ["personal"; "company"; "government"; "ngo"].
Definition organizational_types : list string := ["company"; "government"; "ngo"].
Definition priorities : list string := ["low"; "medium"; "high"; "urgent"].

(** The checks on the customer type and the fields it requires, shared by
    the two views. *)
Definition validate_customer_type (form : Form) (d : string) : option string :=
  let customer_type := field d (f_customer_type form) in
  if negb (in_list customer_type customer_types) then Some "Invalid customer type"
  else if String.eqb customer_type "personal"
          && negb (truthy (field "" (f_personal_subtype form))) then
    Some "Personal subtype is required for personal customers"
  else if in_list customer_type organizational_types
          && (negb (truthy (field "" (f_organization_name form)))
              || negb (truthy (field "" (f_tax_number form)))) then
    Some "Organization name and tax number are required"
  else None.

(** The validation block of [api_update_order_from_extraction]: the error
    message of the first check that fails. *)
Definition validate_extraction (form : Form) : option string :=
  if negb (truthy (field "" (f_customer_name form)))
     || negb (truthy (field "" (f_phone form))) then
    Some "Customer name and phone are required"
  else if negb (truthy (field "" (f_customer_type form))) then
    Some "Customer type is required"
  else validate_customer_type form "".

(** The validation block of [api_create_order_from_modal]. *)
Definition validate_modal (form : Form) : option string :=
  if negb (truthy (field "" (f_customer_name form)))
     || negb (truthy (field "" (f_phone form))) then
    Some "Customer name and phone are required"
  else if negb (in_list (field "service" (f_order_type form))
                        ["service"; "sales"; "inquiry"; "upload"]) then
    Some "Invalid order type"
  else validate_customer_type form "personal".

(** The customer both views create or get inside the transaction. *)
Definition form_customer (ctx : Ctx) (form : Form) (d : string) (db : DB)
  : Customer * DB :=
  let customer_type := field d (f_customer_type form) in
  let customer_name := field "" (f_customer_name form) in
  let phone := field "" (f_phone form) in
  let email := or_none (field "" (f_email form)) in
  let address := or_none (field "" (f_address form)) in
  if String.eqb customer_type "personal" then
    create_or_get_customer db (user_branch ctx) customer_name phone customer_type
      (Some (field "" (f_personal_subtype form))) None None email address
  else
    create_or_get_customer db (user_branch ctx) customer_name phone customer_type
      None (Some (field "" (f_organization_name form)))
      (Some (field "" (f_tax_number form))) email address.

(** The vehicle both views create or get when a plate is given. *)
Definition form_vehicle (form : Form) (customer : Customer) (db : DB)
  : option Vehicle * DB :=
  let plate_number := upper (field "" (f_plate_number form)) in
  if truthy plate_number then
    let (vehicle, db') :=
      create_or_get_vehicle db customer plate_number
        (or_none (field "" (f_vehicle_make form)))
        (or_none (field "" (f_vehicle_model form))) in
    (Some vehicle, db')
  else (None, db).

(** [int(estimated_duration) if estimated_duration else None], a
    [ValueError] giving [None]. *)
Definition parse_duration (form : Form) : option Z :=
  let estimated_duration := field "" (f_estimated_duration form) in
  if truthy estimated_duration then parse_int estimated_duration else None.

Definition form_priority (form : Form) : string :=
  let priority := field "medium" (f_priority form) in
  if in_list priority priorities then priority else "medium".

(** The description the extraction view stores: the description given,
    then a [Services:] line when services are listed. *)
Definition extraction_description (form : Form) : string :=
  let final_description := field "" (f_description form) in
  let services := field "" (f_services form) in
  if truthy services then
    let service_list :=
      filter truthy (map strip (split_on comma services)) in
    if nonempty service_list then
      let services_text := "Services: " ++ join ", " service_list in
      if truthy final_description
      then final_description ++ nl ++ services_text
      else services_text
    else final_description
  else final_description.

Definition with_merge (o : Order) (customer : Z) (vehicle : option Z)
    (description priority : string) (estimated_duration : option Z) : Order :=
  mkOrder (o_id o) (o_order_number o) customer vehicle (o_branch o)
          (o_type o) (o_status o) (o_created_at o) (o_started_at o)
          (o_completed_at o) (Some description) priority estimated_duration
          (o_actual_duration o) (o_item_name o) (o_brand o) (o_quantity o)
          (o_overrun_reason o) (o_overrun_reported_at o) (o_overrun_reported_by o).

Definition api_update_order_from_extraction (ctx : Ctx) (form : Form) (db : DB)
  : Response * DB :=
  let order_id := or_empty (f_order_id form) in
  if negb (truthy order_id) then (ErrorResponse 400 "Order ID is required", db)
  else
    match parse_int order_id with
    | None =>
        (ErrorResponse 500 "Failed to update order: Field 'id' expected a number", db)
    | Some k =>
        match order_in_branch db k (user_branch ctx) with
        | None =>
            (ErrorResponse 500
               "Failed to update order: No Order matches the given query.", db)
        | Some order =>
            match validate_extraction form with
            | Some error => (ErrorResponse 400 error, db)
            | None =>
                let (customer, db1) := form_customer ctx form "" db in
                let (vehicle, db2) := form_vehicle form customer db1 in
                let est_duration := parse_duration form in
                let order :=
                  with_merge order (c_id customer)
                    (match vehicle with
                     | Some v => Some (v_id v)
                     | None => o_vehicle order
                     end)
                    (extraction_description form) (form_priority form)
                    (if truthy_int est_duration then est_duration
                     else o_estimated_duration order) in
                (OrderSaved 200 "Order updated successfully" (o_id order)
                            (o_order_number order),
                 save_order db2 order)
            end
        end
    end.

Definition api_create_order_from_modal (ctx : Ctx) (form : Form) (db : DB)
  : Response * DB :=
  match validate_modal form with
  | Some error => (ErrorResponse 400 error, db)
  | None =>
      let (customer, db1) := form_customer ctx form "personal" db in
      let (vehicle, db2) := form_vehicle form customer db1 in
      let est_duration := parse_duration form in
      let description := field "" (f_description form) in
      let order :=
        new_order ctx db2 customer (option_map v_id vehicle)
          (field "service" (f_order_type form))
          (if truthy description then description
           else "Order for " ++ field "" (f_customer_name form))
          (form_priority form) est_duration in
      (OrderSaved 201 "Order created successfully" (o_id order)
                  (o_order_number order),
       add_order db2 order)
  end.

(** *** [api_record_overrun_reason] *)

Definition with_overrun (o : Order) (reason : string) (at_ : Z) (by_ : Z) : Order :=
  mkOrder (o_id o) (o_order_number o) (o_customer o) (o_vehicle o) (o_branch o)
          (o_type o) (o_status o) (o_created_at o) (o_started_at o)
          (o_completed_at o) (o_description o) (o_priority o)
          (o_estimated_duration o) (o_actual_duration o) (o_item_name o)
          (o_brand o) (o_quantity o) (Some reason) (Some at_) (Some by_).

(** [order.save(update_fields=['overrun_reason', 'overrun_reported_at',
    'overrun_reported_by'])]: the three columns of the row with the
    order's key are written, from the order object. *)
Definition save_overrun_fields (db : DB) (o : Order) : DB :=
  mkDB (customers db) (vehicles db)
       (map (fun x =>
               if o_id x =? o_id o then
                 mkOrder (o_id x) (o_order_number x) (o_customer x) (o_vehicle x)
                         (o_branch x) (o_type x) (o_status x) (o_created_at x)
                         (o_started_at x) (o_completed_at x) (o_description x)
                         (o_priority x) (o_estimated_duration x)
                         (o_actual_duration x) (o_item_name x) (o_brand x)
                         (o_quantity x) (o_overrun_reason o)
                         (o_overrun_reported_at o) (o_overrun_reported_by o)
               else x)
            (orders db))
       (service_types db) (service_addons db) (inventory_items db)
       (catalogue_raises db).

(** [body] is [None] when the request body is not JSON, and otherwise the
    ['reason'] entry of the JSON object, [None] when absent or null. *)
Definition api_record_overrun_reason (ctx : Ctx) (body : option (option string))
    (order_id : Z) (db : DB) : Response * DB :=
  match body with
  | None => (ErrorResponse 400 "Invalid JSON", db)
  | Some data =>
      let reason := strip (or_empty data) in
      if negb (truthy reason) then (ErrorResponse 400 "Reason is required", db)
      else
        match order_in_branch db order_id (user_branch ctx) with
        | None => (ErrorResponse 500 "No Order matches the given query.", db)
        | Some order =>
            let order := with_overrun order reason (now ctx) (user ctx) in
            (SuccessResponse, save_overrun_fields db order)
        end
  end.

End Views.

(* ------------------------------------------------------------------ *)
(** ** The reporting views *)

Module Reports.

Import PyStr Query.

(** *** [overrun_reports] *)

Record OverrunRecord := mkOverrunRecord {
  r_id : Z;
  r_order_number : string;
  r_overrun_reason : option string;
  r_overrun_reported_by : option Z;
  r_overrun_reported_at : option Z;
  r_delay_minutes : option Z
}.

(** The delay of one record: computed only when both durations are
    truthy, that is neither [None] nor [0]. *)
Definition delay_minutes (o : Order) : option Z :=
  if truthy_int (o_actual_duration o) && truthy_int (o_estimated_duration o) then
    match o_actual_duration o, o_estimated_duration o with
    | Some a, Some e => Some (Z.max 0 (a - e))
    | _, _ => None
    end
  else None.

Definition overrun_record (o : Order) : OverrunRecord :=
  mkOverrunRecord (o_id o) (o_order_number o) (o_overrun_reason o)
                  (o_overrun_reported_by o) (o_overrun_reported_at o)
                  (delay_minutes o).

(** [a] is reported no later than [b]; a missing report time sorts as the
    earliest. *)
Definition reported_leb (a b : Order) : bool :=
  match o_overrun_reported_at a, o_overrun_reported_at b with
  | None, _ => true
  | Some _, None => false
  | Some x, Some y => x <=? y
  end.

Fixpoint insert_desc (o : Order) (l : list Order) : list Order :=
  match l with
  | [] => [o]
  | x :: r => if reported_leb o x then x :: insert_desc o r else o :: l
  end.

(** [.order_by('-overrun_reported_at')] *)
Definition order_by_reported_desc (l : list Order) : list Order :=
  fold_right insert_desc [] l.

(** [qs.filter(overrun_reason__isnull=False)
       .order_by('-overrun_reported_at')], with [qs] the orders of the
    user's branch, or all orders for a user without a branch. *)
Definition overruns (ctx : Ctx) (db : DB) : list Order :=
  let qs := match user_branch ctx with
            | Some _ => filter (fun o => branch_eqb (o_branch o) (user_branch ctx))
                               (orders db)
            | None => orders db
            end in
  order_by_reported_desc
    (filter (fun o => match o_overrun_reason o with
                      | Some _ => true
                      | None => false
                      end) qs).

(** The [recent_overruns] entry of the page context. *)
Definition recent_overruns (ctx : Ctx) (db : DB) : list OverrunRecord :=
  map overrun_record (firstn 50 (overruns ctx db)).

(** *** [api_started_orders_kpis] and the dashboard statistics *)

Definition is_created (o : Order) : bool := String.eqb (o_status o) "created".

Definition started_on (day : Z) (o : Order) : bool :=
  match o_started_at o with
  | Some t => date_of t =? day
  | None => false
  end.

(** [Order.objects.filter(branch=user_branch, status='created')] *)
Definition started_orders (ctx : Ctx) (db : DB) : list Order :=
  filter (fun o => branch_eqb (o_branch o) (user_branch ctx) && is_created o)
         (orders db).

(** [... .filter(started_at__date=timezone.now().date())] *)
Definition started_today (ctx : Ctx) (db : DB) : list Order :=
  filter (started_on (date_of (now ctx))) (started_orders ctx db).

(** [.filter(vehicle__isnull=False).values('vehicle__plate_number')]: the
    plate of the vehicle each order joins to. *)
Definition plate_of (db : DB) (o : Order) : option string :=
  match o_vehicle o with
  | Some k => option_map v_plate_number (find (fun v => v_id v =? k) (vehicles db))
  | None => None
  end.

Definition plates_today (ctx : Ctx) (db : DB) : list string :=
  flat_map (fun o => match plate_of db o with
                     | Some p => [p]
                     | None => []
                     end)
           (started_today ctx db).

(** One more row in the group of key [k]. *)
Fixpoint bump (k : string) (groups : list (string * Z)) : list (string * Z) :=
  match groups with
  | [] => [(k, 1)]
  | (k', n) :: r =>
      if String.eqb k k' then (k', n + 1) :: r else (k', n) :: bump k r
  end.

(** [.values(key).annotate(order_count=Count('id'))]: one group per key,
    with the number of its rows. *)
Definition group_count (keys : list string) : list (string * Z) :=
  fold_left (fun groups k => bump k groups) keys [].

(** [today_orders.filter(order_count__gte=2).count()] *)
Definition repeated_vehicles_today (ctx : Ctx) (db : DB) : Z :=
  Z.of_nat (List.length (filter (fun g => 2 <=? snd g)
                           (group_count (plates_today ctx db)))).

Record Kpis := mkKpis {
  k_total_started : Z;
  k_today_started : Z;
  k_repeated_vehicles_today : Z
}.

Definition api_started_orders_kpis (ctx : Ctx) (db : DB) : Kpis :=
  mkKpis (Z.of_nat (List.length (started_orders ctx db)))
         (Z.of_nat (List.length (started_today ctx db)))
         (repeated_vehicles_today ctx db).

(** The [total_started], [today_started] and [repeated_vehicles_today]
    entries of the page context of [started_orders_dashboard], which runs
    the same three queries. *)
Definition started_orders_dashboard_statistics (ctx : Ctx) (db : DB) : Kpis :=
  mkKpis (Z.of_nat (List.length (started_orders ctx db)))
         (Z.of_nat (List.length (started_today ctx db)))
         (repeated_vehicles_today ctx db).

End Reports.

(* ------------------------------------------------------------------ *)
(** ** Concrete states used in the examples below *)

Module Sample.

Import Views Reports.

(** A user of branch 1 at the start of day 20000. *)
Definition ctx : Ctx := mkCtx 7 (Some 1) 1728000000 "ORD-NEW".

(** The same user an hour later. *)
Definition ctx_later : Ctx := mkCtx 7 (Some 1) 1728003600 "ORD-NEXT".

Definition alice : Customer :=
  mkCustomer 1 (Some 1) "Alice" "0700" "personal" (Some "owner") None None None None.

(** A customer of another branch. *)
Definition bob : Customer :=
  mkCustomer 2 (Some 2) "Bob" "0711" "personal" (Some "owner") None None None None.

Definition car_abc : Vehicle := mkVehicle 1 1 "ABC" None None None.
Definition car_xyz : Vehicle := mkVehicle 2 1 "XYZ" None None None.
Definition car_bob : Vehicle := mkVehicle 3 2 "BOB1" None None None.

(** An order of branch 1 started at [started_at], with the given key,
    vehicle, status and durations. *)
Definition order (k : Z) (vehicle : option Z) (status : string) (started_at : Z)
    (estimated actual : option Z) : Order :=
  mkOrder k "ORD" 1 vehicle (Some 1) "service" status started_at (Some started_at)
          None (Some "Order started") "medium" estimated actual
          None None None None None None.

Definition garage : DB :=
  mkDB [alice; bob] [car_abc; car_xyz; car_bob] [] [] [] [] false.

Definition with_orders (db : DB) (l : list Order) : DB :=
  mkDB (customers db) (vehicles db) l (service_types db) (service_addons db)
       (inventory_items db) (catalogue_raises db).

Definition start_abc : StartOrderData :=
  mkStartOrderData (Some "abc") (Some "service") false None [] None.

(** The garage with one order in progress, for Alice's car [ABC]. *)
Definition db_one_order : DB :=
  with_orders garage [order 1 (Some 1) "created" 1728000000 (Some 60) None].

End Sample.

(* ------------------------------------------------------------------ *)
(** ** Overrun reports *)

Module OverrunProofs.

Import Views Reports.

Lemma in_insert_desc (o x : Order) (l : list Order) :
  In x (insert_desc o l) -> x = o \/ In x l.
Proof.
  induction l as [|y r IH]; simpl.
  - intros [H|[]]; auto.
  - destruct (reported_leb o y); simpl.
    + intros [H|H]; auto. apply IH in H. tauto.
    + intros [H|[H|H]]; auto.
Qed.

Lemma in_order_by_reported_desc (x : Order) (l : list Order) :
  In x (order_by_reported_desc l) -> In x l.
Proof.
  induction l as [|y r IH]; simpl; auto.
  intros H. apply in_insert_desc in H. destruct H; auto.
Qed.

Lemma in_overruns (ctx : Ctx) (db : DB) (o : Order) :
  In o (overruns ctx db) -> In o (orders db) /\ o_overrun_reason o <> None.
Proof.
  unfold overruns. intros H.
  apply in_order_by_reported_desc in H.
  apply filter_In in H. destruct H as [H R].
  split.
  - destruct (user_branch ctx); auto.
    apply filter_In in H. tauto.
  - destruct (o_overrun_reason o); congruence.
Qed.

Lemma in_firstn {A : Type} (n : nat) (l : list A) (x : A) :
  In x (firstn n l) -> In x l.
Proof.
  revert l. induction n as [|n IH]; intros [|y r]; simpl; try tauto.
  intros [H|H]; auto.
Qed.

(** The delay as a function of the two durations. *)
Lemma delay_minutes_cases (o : Order) :
  delay_minutes o =
  match o_actual_duration o, o_estimated_duration o with
  | Some a, Some e =>
      if (a =? 0) || (e =? 0) then None else Some (Z.max 0 (a - e))
  | _, _ => None
  end.
Proof.
  unfold delay_minutes, truthy_int.
  destruct (o_actual_duration o) as [a|], (o_estimated_duration o) as [e|];
    simpl; try reflexivity.
  - destruct (a =? 0), (e =? 0); reflexivity.
  - destruct (a =? 0); reflexivity.
Qed.

(** C6, as the code has it: every record of the overrun report is the
    record of a reported order of the database, and its [delay_minutes] is
    [max(0, actual_duration - estimated_duration)] when both durations are
    present and different from zero, and [None] when either is missing or
    zero. *)
Theorem recent_overruns_delay (ctx : Ctx) (db : DB) (r : OverrunRecord) :
  In r (recent_overruns ctx db) ->
  exists o,
    In o (orders db) /\ o_overrun_reason o <> None /\ r = overrun_record o /\
    (forall a e,
        o_actual_duration o = Some a -> o_estimated_duration o = Some e ->
        a <> 0 -> e <> 0 ->
        r_delay_minutes r = Some (Z.max 0 (a - e))) /\
    (o_actual_duration o = None \/ o_estimated_duration o = None \/
     o_actual_duration o = Some 0 \/ o_estimated_duration o = Some 0 ->
     r_delay_minutes r = None).
Proof.
  unfold recent_overruns. intros H.
  apply in_map_iff in H. destruct H as [o [E H]].
  apply in_firstn in H. apply in_overruns in H. destruct H as [Ho Hr].
  exists o. subst r. repeat split; auto; simpl; rewrite delay_minutes_cases.
  - intros a e Ha He Na Ne. rewrite Ha, He.
    apply Z.eqb_neq in Na. apply Z.eqb_neq in Ne. rewrite Na, Ne. reflexivity.
  - intros [H|[H|[H|H]]]; rewrite H; try reflexivity.
    + destruct (o_actual_duration o); reflexivity.
    + destruct (o_estimated_duration o) as [e|]; [|reflexivity].
      reflexivity.
    + destruct (o_actual_duration o) as [a|]; [|reflexivity].
      simpl. rewrite orb_true_r. reflexivity.
Qed.

(** An order reported late: 90 minutes spent on an estimate of 60. *)
Definition late_order : Order :=
  Views.with_overrun (Sample.order 1 (Some 1) "completed" 1728000000 (Some 60) (Some 90))
                     "parts missing" 1728005400 7.

(** An order reported late that has no actual duration yet. *)
Definition open_order : Order :=
  Views.with_overrun (Sample.order 2 (Some 1) "created" 1728000000 (Some 60) None)
                     "parts missing" 1728005500 7.

(** An order reported late that was given an estimate of zero minutes. *)
Definition zero_estimate_order : Order :=
  Views.with_overrun (Sample.order 3 (Some 2) "completed" 1728000000 (Some 0) (Some 30))
                     "customer late" 1728005600 7.

Definition overrun_db : DB :=
  Sample.with_orders Sample.garage [late_order; open_order; zero_estimate_order].

(** The two examples of the specification: 90 against 60 gives 30, and a
    missing actual duration gives [None]. *)
Example recent_overruns_sample :
  map (fun r => (r_id r, r_delay_minutes r)) (recent_overruns Sample.ctx overrun_db)
  = [(3, None); (2, None); (1, Some 30)].
Proof. reflexivity. Qed.

Lemma recent_overruns_delay_witness :
  exists o,
    In o (orders overrun_db) /\ o_overrun_reason o <> None /\
    overrun_record late_order = overrun_record o /\
    (forall a e,
        o_actual_duration o = Some a -> o_estimated_duration o = Some e ->
        a <> 0 -> e <> 0 ->
        r_delay_minutes (overrun_record late_order) = Some (Z.max 0 (a - e))) /\
    (o_actual_duration o = None \/ o_estimated_duration o = None \/
     o_actual_duration o = Some 0 \/ o_estimated_duration o = Some 0 ->
     r_delay_minutes (overrun_record late_order) = None).
Proof.
  apply (recent_overruns_delay Sample.ctx overrun_db (overrun_record late_order)).
  vm_compute. auto.
Defined.

(** C6 as the specification words it fails on a duration of zero: with 30
    minutes spent on an estimate of 0 both durations are present and
    [max(0, 30 - 0)] is 30, but the record carries no delay. *)
Lemma delay_of_zero_estimate_is_none :
  In (overrun_record zero_estimate_order) (recent_overruns Sample.ctx overrun_db) /\
  o_actual_duration zero_estimate_order = Some 30 /\
  o_estimated_duration zero_estimate_order = Some 0 /\
  r_delay_minutes (overrun_record zero_estimate_order) = None /\
  Z.max 0 (30 - 0) = 30.
Proof. vm_compute. repeat split; auto. Qed.

End OverrunProofs.

(* ------------------------------------------------------------------ *)
(** ** Facts about the string primitives and the queries *)

Module Facts.

Import PyStr Query Services.





Lemma truthy_true (s : string) : truthy s = true <-> s <> EmptyString.
Proof. destruct s; simpl; split; congruence. Qed.

Lemma iexact_spec (a b : string) : iexact a b = true <-> upper a = upper b.
Proof. unfold iexact. apply String.eqb_eq. Qed.


Lemma iexact_refl (a : string) : iexact a a = true.
Proof. apply iexact_spec. reflexivity. Qed.

Lemma branch_eqb_spec (a b : Branch) : branch_eqb a b = true <-> a = b.
Proof.
  destruct a as [x|], b as [y|]; simpl; try (split; congruence).
  rewrite Z.eqb_eq. split; congruence.
Qed.

Lemma branch_eqb_refl (a : Branch) : branch_eqb a a = true.
Proof. apply branch_eqb_spec. reflexivity. Qed.

Lemma in_list_spec (s : string) (l : list string) : in_list s l = true <-> In s l.
Proof.
  unfold in_list. rewrite existsb_exists. split.
  - intros [x [H E]]. apply String.eqb_eq in E. subst. assumption.
  - intros H. exists s. split; [assumption | apply String.eqb_refl].
Qed.



Lemma first_none {A : Type} (l : list A) : first l = None <-> l = [].
Proof. destruct l; simpl; split; congruence. Qed.

End Facts.

(* ------------------------------------------------------------------ *)
(** ** [api_check_plate] *)

Module CheckPlateProofs.

Import PyStr Query Views Facts.



(** The vehicle of another branch's customer is not found. *)
Example check_plate_other_branch :
  api_check_plate Sample.ctx (Some "bob1") Sample.garage = PlateNotFound.
Proof. reflexivity. Qed.

End CheckPlateProofs.

(* ------------------------------------------------------------------ *)
(** ** [api_record_overrun_reason] *)

Module OverrunReasonProofs.

Import PyStr Query Views Facts.






(** The reason stored is the trimmed one. *)
Example stored_reason_is_trimmed :
  map o_overrun_reason
      (orders (snd (api_record_overrun_reason Sample.ctx
                      (Some (Some " waiting for parts ")) 1 Sample.db_one_order)))
  = [Some "waiting for parts"].
Proof. reflexivity. Qed.

End OverrunReasonProofs.

(* ------------------------------------------------------------------ *)
(** ** What the create-or-get services leave alone *)

Module ServiceFacts.

Import PyStr Query Services Views Facts.

Lemma customer_service_frame (db db' : DB) (b : Branch) (n p t : string)
      (ps org tax em ad : option string) (c : Customer) :
  create_or_get_customer db b n p t ps org tax em ad = (c, db') ->
  vehicles db' = vehicles db /\ orders db' = orders db /\
  service_types db' = service_types db /\
  service_addons db' = service_addons db /\
  inventory_items db' = inventory_items db /\
  catalogue_raises db' = catalogue_raises db /\
  c_branch c = b /\
  ((In c (customers db) /\ db' = db) \/
   (customers db' = (customers db ++ [c])%list /\
    c_id c = next_id c_id (customers db))).
Proof.
  unfold create_or_get_customer.
  destruct (find _ (customers db)) as [c0|] eqn:F; intros H; inversion H; subst.
  - apply find_some in F. destruct F as [Hin Hp].
    repeat rewrite andb_true_iff in Hp.
    destruct Hp as [[[[Hb _] _] _] _]. apply branch_eqb_spec in Hb.
    repeat split; auto.
  - simpl. repeat split; auto.
Qed.

Lemma vehicle_service_frame (db db' : DB) (c : Customer) (plate : string)
      (mk md : option string) (v : Vehicle) :
  create_or_get_vehicle db c plate mk md = (v, db') ->
  customers db' = customers db /\ orders db' = orders db /\
  service_types db' = service_types db /\
  service_addons db' = service_addons db /\
  inventory_items db' = inventory_items db /\
  catalogue_raises db' = catalogue_raises db /\
  v_customer v = c_id c /\ iexact (v_plate_number v) plate = true /\
  ((In v (vehicles db) /\ db' = db) \/
   (vehicles db' = (vehicles db ++ [v])%list /\
    v_id v = next_id v_id (vehicles db) /\ v_plate_number v = plate)).
Proof.
  unfold create_or_get_vehicle.
  destruct (find _ (vehicles db)) as [v0|] eqn:F; intros H; inversion H; subst.
  - apply find_some in F. destruct F as [Hin Hp].
    apply andb_true_iff in Hp. destruct Hp as [Hc Hi].
    apply Z.eqb_eq in Hc. repeat split; auto.
  - simpl. repeat split; auto using iexact_refl.
Qed.

Lemma form_customer_frame (ctx : Ctx) (form : Form) (d : string) (db db' : DB)
      (c : Customer) :
  form_customer ctx form d db = (c, db') ->
  vehicles db' = vehicles db /\ orders db' = orders db /\
  service_types db' = service_types db /\
  service_addons db' = service_addons db /\
  inventory_items db' = inventory_items db /\
  catalogue_raises db' = catalogue_raises db.
Proof.
  unfold form_customer.
  destruct (String.eqb _ "personal"); intros H;
    apply customer_service_frame in H; tauto.
Qed.

Lemma form_vehicle_frame (form : Form) (c : Customer) (db db' : DB)
      (v : option Vehicle) :
  form_vehicle form c db = (v, db') ->
  customers db' = customers db /\ orders db' = orders db /\
  service_types db' = service_types db /\
  service_addons db' = service_addons db /\
  inventory_items db' = inventory_items db /\
  catalogue_raises db' = catalogue_raises db.
Proof.
  unfold form_vehicle.
  destruct (truthy _).
  - destruct (create_or_get_vehicle _ _ _ _ _) as [w db1] eqn:V.
    intros H; inversion H; subst.
    apply vehicle_service_frame in V. tauto.
  - intros H; inversion H; subst. tauto.
Qed.

End ServiceFacts.

(* ------------------------------------------------------------------ *)
(** ** [api_update_order_from_extraction] and [api_create_order_from_modal] *)

Module FormProofs.

Import PyStr Query Services Views Facts ServiceFacts.







Local Arguments in_list : simpl never.



(** A personal customer without a subtype, for order 1. *)
Definition form_no_subtype : Form :=
  mkForm (Some "1") None (Some "personal") None None None (Some "Alice")
         (Some "0700") None None None None None None None None None.


Example extraction_no_subtype :
  api_update_order_from_extraction Sample.ctx form_no_subtype
    Sample.db_one_order
  = (ErrorResponse 400 "Personal subtype is required for personal customers",
     Sample.db_one_order).
Proof. reflexivity. Qed.

(** A company without a tax number, for order 1. *)
Definition form_no_tax_number : Form :=
  mkForm (Some "1") None (Some "company") None (Some "Acme Ltd") None
         (Some "Alice") (Some "0700") None None None None None None None None None.

Example extraction_no_tax_number :
  api_update_order_from_extraction Sample.ctx form_no_tax_number Sample.db_one_order
  = (ErrorResponse 400 "Organization name and tax number are required",
     Sample.db_one_order).
Proof. reflexivity. Qed.




Lemma order_in_branch_in (db : DB) (k : Z) (b : Branch) (order : Order) :
  order_in_branch db k b = Some order ->
  In order (orders db) /\ o_id order = k /\ o_branch order = b.
Proof.
  unfold order_in_branch. intros H. apply find_some in H.
  destruct H as [Hin Hp]. apply andb_true_iff in Hp. destruct Hp as [Hk Hb].
  apply Z.eqb_eq in Hk. apply branch_eqb_spec in Hb. auto.
Qed.






(** Alice as owner, for order 1, with a priority and a duration that are
    no priority and no number. *)
Definition form_odd : Form :=
  mkForm (Some "1") (Some "service") (Some "personal") (Some "owner") None None
         (Some "Alice") (Some "0700") None None (Some "Brake check")
         (Some "soon") (Some "asap") None (Some "abc") None None.


(** What the two views store for [form_odd]. *)
Example form_odd_stored :
  map (fun o => (o_id o, o_priority o, o_estimated_duration o))
      (orders (snd (api_update_order_from_extraction Sample.ctx form_odd
                      Sample.db_one_order)))
  = [(1, "medium", Some 60)] /\
  map (fun o => (o_id o, o_priority o, o_estimated_duration o))
      (orders (snd (api_create_order_from_modal Sample.ctx form_odd
                      Sample.db_one_order)))
  = [(1, "medium", Some 60); (2, "medium", None)].
Proof. split; reflexivity. Qed.



End FormProofs.

(* ------------------------------------------------------------------ *)
(** ** [api_start_order]: what a call does to the orders *)

Module StartOrderProofs.

Import PyStr Query Services Views Facts ServiceFacts.

Lemma estimate_duration_ext (db db' : DB) (ot : string) (sel : list string)
      (est : option Z) :
  service_types db' = service_types db ->
  service_addons db' = service_addons db ->
  catalogue_raises db' = catalogue_raises db ->
  estimate_duration db' ot sel est = estimate_duration db ot sel est.
Proof.
  intros H1 H2 H3. unfold estimate_duration, total_minutes.
  rewrite H1, H2, H3. reflexivity.
Qed.

Lemma created_orders_of_ext (db db' : DB) (v : Z) :
  orders db' = orders db -> created_orders_of db' v = created_orders_of db v.
Proof. unfold created_orders_of. intros H. rewrite H. reflexivity. Qed.

(** The duration [api_start_order] stores in an order it creates. *)
Definition stored_duration (db : DB) (order_type : string) (data : StartOrderData)
  : option Z :=
  let e := estimate_duration db order_type (so_service_selection data)
                             (so_estimated_duration data) in
  if truthy_int e then e else None.

(** What a call has done to the orders: nothing, or one order of status
    [created] added for a vehicle that had none. *)
Definition adds_at_most_one (db db' : DB) (order_type : string)
           (data : StartOrderData) : Prop :=
  orders db' = orders db \/
  exists v o,
    orders db' = (orders db ++ [o])%list /\
    o_vehicle o = Some v /\ o_status o = "created" /\
    created_orders_of db v = [] /\
    o_id o = next_id o_id (orders db) /\
    o_type o = order_type /\
    o_estimated_duration o = stored_duration db order_type data.

Lemma start_order_commit_effect (ctx : Ctx) (data : StartOrderData)
      (plate order_type : string) (db : DB) :
  adds_at_most_one db (snd (start_order_commit ctx data plate order_type db))
                   order_type data.
Proof.
  unfold start_order_commit.
  set (resolved := start_order_customer ctx data plate db).
  assert (R : resolved = None \/
              exists c db1, resolved = Some (c, db1) /\
                            orders db1 = orders db /\
                            service_types db1 = service_types db /\
                            service_addons db1 = service_addons db /\
                            catalogue_raises db1 = catalogue_raises db).
  { unfold resolved, start_order_customer.
    destruct (so_use_existing_customer data
              && truthy_int (so_existing_customer_id data)).
    - destruct (customer_in_branch _ _ _) as [c|]; [right|left; reflexivity].
      exists c, db. auto.
    - right.
      destruct (create_or_get_customer _ _ _ _ _ _ _ _ _ _) as [c db1] eqn:C.
      apply customer_service_frame in C. exists c, db1. tauto. }
  destruct R as [R|[c [db1 [R [O1 [S1 [A1 K1]]]]]]]; rewrite R.
  - left. reflexivity.
  - destruct (create_or_get_vehicle db1 c plate None None) as [v db2] eqn:V.
    apply vehicle_service_frame in V.
    destruct V as [_ [O2 [S2 [A2 [_ [K2 _]]]]]].
    assert (O : orders db2 = orders db) by congruence.
    destruct (first (created_orders_of db2 (v_id v))) as [eo|] eqn:F.
    + left. simpl. assumption.
    + right. apply first_none in F.
      rewrite (created_orders_of_ext db db2 _ O) in F.
      eexists. eexists. cbn [snd add_order orders]. rewrite O.
      split; [reflexivity|].
      cbn [new_order o_vehicle o_status o_id o_type o_estimated_duration].
      rewrite O. repeat split; auto.
      unfold stored_duration.
      rewrite (estimate_duration_ext db db2); congruence.
Qed.

Lemma start_order_effect (ctx : Ctx) (data : StartOrderData) (db : DB) :
  adds_at_most_one db (snd (api_start_order ctx (Some data) db))
                   (default "service" (so_order_type data)) data.
Proof.
  unfold api_start_order.
  destruct (negb (truthy _)); [left; reflexivity|].
  destruct (negb (in_list _ _)); [left; reflexivity|].
  destruct (first (vehicles_by_plate _ _ _)) as [[ev ec]|].
  - destruct (latest _); destruct (negb _ && negb _);
      try (left; reflexivity); apply start_order_commit_effect.
  - apply start_order_commit_effect.
Qed.

(** C8, as the code has it: only active service types are looked up, and
    the duration is stored only in an order the call creates.  When a call
    for a [service] order with a non-empty service selection creates an
    order, its estimated duration is the sum of the estimated minutes of
    the active service types and of the add-ons named in the selection
    whenever that sum is not zero; when the lookup raises, or the sum is
    zero, it is the estimated duration the caller supplied, zero counting
    as none. *)
Theorem start_order_estimated_duration (ctx : Ctx) (data : StartOrderData)
        (db : DB) (o : Order) :
  default "service" (so_order_type data) = "service" ->
  so_service_selection data <> [] ->
  orders (snd (api_start_order ctx (Some data) db)) = (orders db ++ [o])%list ->
  let sel := so_service_selection data in
  let supplied := if truthy_int (so_estimated_duration data)
                  then so_estimated_duration data else None in
  let total :=
    sum_Z (map (fun s => int_or_0 (st_estimated_minutes s))
               (filter (fun s => in_list (st_name s) sel && st_is_active s)
                       (service_types db)))
    + sum_Z (map (fun a => int_or_0 (sa_estimated_minutes a))
                 (filter (fun a => in_list (sa_name a) sel) (service_addons db))) in
  o_estimated_duration o =
  if catalogue_raises db then supplied
  else if total =? 0 then supplied else Some total.
Proof.
  intros Ht Hs Ho sel supplied total.
  destruct (start_order_effect ctx data db) as [E|[v [o' [E [_ [_ [_ [_ [_ D]]]]]]]]].
  - rewrite E in Ho. apply (f_equal (@List.length Order)) in Ho.
    rewrite length_app in Ho. simpl in Ho. lia.
  - rewrite E in Ho. apply app_inj_tail in Ho. destruct Ho as [_ Ho]. subst o'.
    rewrite D. unfold stored_duration, estimate_duration. rewrite Ht.
    fold sel. replace (nonempty sel) with true
      by (unfold sel; destruct (so_service_selection data);
          [contradiction | reflexivity]).
    rewrite String.eqb_refl. cbn [andb].
    destruct (catalogue_raises db); [reflexivity|].
    change (total_minutes db sel) with total.
    destruct (total =? 0) eqn:Z0; cbn [negb]; [reflexivity|].
    unfold truthy_int. rewrite Z0. reflexivity.
Qed.

(** A catalogue with one active service, one add-on and one service that
    is no longer offered. *)
Definition catalogue_db : DB :=
  mkDB [Sample.alice; Sample.bob]
       [Sample.car_abc; Sample.car_xyz; Sample.car_bob] []
       [mkServiceType "Oil change" (Some 45) true;
        mkServiceType "Wash" (Some 30) false]
       [mkServiceAddon "Polish" (Some 20) true] [] false.

Definition start_new1 (sel : list string) : StartOrderData :=
  mkStartOrderData (Some "new1") (Some "service") false None sel (Some 15).

Definition created_by (data : StartOrderData) : list Order :=
  orders (snd (api_start_order Sample.ctx (Some data) catalogue_db)).

Example start_order_sums_services :
  map o_estimated_duration (created_by (start_new1 ["Oil change"; "Polish"]))
  = [Some 65].
Proof. reflexivity. Qed.

(** The order that call creates. *)
Definition oil_order : Order :=
  Eval vm_compute in
    hd (Sample.order 0 None "" 0 None None)
       (created_by (start_new1 ["Oil change"; "Polish"])).

Lemma start_order_estimated_duration_witness :
  o_estimated_duration oil_order = Some 65.
Proof.
  apply (start_order_estimated_duration Sample.ctx
           (start_new1 ["Oil change"; "Polish"]) catalogue_db oil_order).
  - reflexivity.
  - discriminate.
  - reflexivity.
Defined.

(** C8 as the specification words it fails on a service type that is not
    active: [Wash] is a ServiceType record of 30 minutes whose name is
    selected, but the order gets the 15 minutes the caller supplied. *)
Lemma inactive_service_is_not_counted :
  map (fun s => (st_name s, st_estimated_minutes s))
      (filter (fun s => in_list (st_name s) ["Wash"]) (service_types catalogue_db))
  = [("Wash", Some 30)] /\
  map o_estimated_duration (created_by (start_new1 ["Wash"])) = [Some 15].
Proof. split; reflexivity. Qed.

End StartOrderProofs.

(* ------------------------------------------------------------------ *)
(** ** One order of status [created] per vehicle *)

Module InvariantProofs.

Import PyStr Query Services Views Facts ServiceFacts StartOrderProofs.

(** No vehicle has two orders of status [created]. *)
Definition one_created_per_vehicle (db : DB) : Prop :=
  forall v, (List.length (created_orders_of db v) <= 1)%nat.

Lemma next_id_fresh {A : Type} (pk : A -> Z) (rows : list A) (x : A) :
  In x rows -> pk x < next_id pk rows.
Proof.
  unfold next_id. induction rows as [|y r IH]; cbn [In map fold_right];
    [contradiction|].
  intros [H|H].
  - subst. lia.
  - apply IH in H. lia.
Qed.


Lemma vehicle_is_spec (v : Z) (o : Order) :
  vehicle_is v o = true <-> o_vehicle o = Some v.
Proof.
  unfold vehicle_is. destruct (o_vehicle o) as [k|].
  - rewrite Z.eqb_eq. split; congruence.
  - split; discriminate.
Qed.









(** [api_start_order] for the same plate returns the order there is. *)
Example start_order_returns_the_created_order :
  api_start_order Sample.ctx_later (Some Sample.start_abc)
                  Sample.db_one_order
  = (OrderStarted 200 1 "ORD" "ABC" 1728000000 true,
     Sample.db_one_order).
Proof. reflexivity. Qed.

End InvariantProofs.

(* ------------------------------------------------------------------ *)
(** ** The KPI of repeated vehicles *)

Module KpiProofs.

Import PyStr Query Views Reports Facts.

(** The number of rows in the group of key [k]. *)
Fixpoint count_of (k : string) (groups : list (string * Z)) : Z :=
  match groups with
  | [] => 0
  | (k', n) :: r => if String.eqb k k' then n else count_of k r
  end.

(** The number of times [k] occurs among [keys]. *)
Definition occurrences (k : string) (keys : list string) : nat :=
  List.length (filter (String.eqb k) keys).

Lemma count_of_bump (k k' : string) (g : list (string * Z)) :
  count_of k' (bump k g) = count_of k' g + (if String.eqb k' k then 1 else 0).
Proof.
  induction g as [|[k0 n] r IH]; simpl.
  - destruct (String.eqb k' k); reflexivity.
  - destruct (String.eqb k k0) eqn:E; simpl.
    + apply String.eqb_eq in E. subst k0.
      destruct (String.eqb k' k); lia.
    + destruct (String.eqb k' k0) eqn:E'.
      * apply String.eqb_eq in E'. subst k0.
        rewrite String.eqb_sym, E. lia.
      * apply IH.
Qed.

Lemma keys_bump (k k' : string) (g : list (string * Z)) :
  In k' (map fst (bump k g)) <-> k' = k \/ In k' (map fst g).
Proof.
  induction g as [|[k0 n] r IH]; simpl.
  - intuition congruence.
  - destruct (String.eqb k k0) eqn:E; simpl.
    + apply String.eqb_eq in E. subst k0. intuition congruence.
    + rewrite IH. intuition congruence.
Qed.

Lemma nodup_bump (k : string) (g : list (string * Z)) :
  NoDup (map fst g) -> NoDup (map fst (bump k g)).
Proof.
  induction g as [|[k0 n] r IH]; simpl; intros H.
  - constructor; [intros []| constructor].
  - inversion H as [|? ? Hnot Hr]; subst.
    destruct (String.eqb k k0) eqn:E; simpl.
    + constructor; assumption.
    + constructor; [|apply IH; assumption].
      rewrite keys_bump. intros [H0|H0]; [|contradiction].
      subst k0. rewrite String.eqb_refl in E. discriminate.
Qed.

Lemma group_fold (keys : list string) (g : list (string * Z)) :
  NoDup (map fst g) ->
  let G := fold_left (fun groups k => bump k groups) keys g in
  NoDup (map fst G) /\
  (forall k, count_of k G = count_of k g + Z.of_nat (occurrences k keys)) /\
  (forall k, In k (map fst G) <-> In k (map fst g) \/ In k keys).
Proof.
  revert g. induction keys as [|k0 r IH]; intros g Hg; simpl.
  - repeat split; auto; try tauto. unfold occurrences. simpl. lia.
  - destruct (IH (bump k0 g) (nodup_bump k0 g Hg)) as [N [C K]].
    split; [exact N|]. split.
    + intros k. rewrite C, count_of_bump. unfold occurrences. simpl.
      destruct (String.eqb k k0); simpl; lia.
    + intros k. rewrite K, keys_bump. intuition congruence.
Qed.

Lemma count_of_in (k : string) (n : Z) (g : list (string * Z)) :
  NoDup (map fst g) -> In (k, n) g -> count_of k g = n.
Proof.
  induction g as [|[k0 m] r IH]; simpl; intros H Hin; [contradiction|].
  inversion H as [|? ? Hnot Hr]; subst.
  destruct Hin as [Hin|Hin].
  - inversion Hin; subst. rewrite String.eqb_refl. reflexivity.
  - destruct (String.eqb k k0) eqn:E; [|auto].
    apply String.eqb_eq in E. subst k0. exfalso. apply Hnot.
    change k with (fst (k, n)). apply in_map. assumption.
Qed.

Lemma nodup_filter_keys (f : string * Z -> bool) (g : list (string * Z)) :
  NoDup (map fst g) -> NoDup (map fst (filter f g)).
Proof.
  induction g as [|x r IH]; simpl; intros H; [constructor|].
  inversion H as [|? ? Hnot Hr]; subst.
  destruct (f x); simpl; [|auto].
  constructor; [|auto].
  intros Hin. apply Hnot. apply in_map_iff in Hin.
  destruct Hin as [y [E Hy]]. apply filter_In in Hy.
  apply in_map_iff. exists y. tauto.
Qed.

Lemma occurrences_pos (k : string) (keys : list string) :
  (0 < occurrences k keys)%nat -> In k keys.
Proof.
  unfold occurrences. induction keys as [|x r IH]; simpl; [lia|].
  destruct (String.eqb k x) eqn:E.
  - apply String.eqb_eq in E. auto.
  - auto.
Qed.

(** The groups with two rows or more are the keys that occur twice or
    more, each once. *)
Lemma repeated_groups (keys : list string) :
  let plates := map fst (filter (fun g => 2 <=? snd g) (group_count keys)) in
  NoDup plates /\
  (forall p, In p plates <-> (2 <= occurrences p keys)%nat).
Proof.
  unfold group_count.
  destruct (group_fold keys [] (NoDup_nil _)) as [N [C K]].
  simpl in C, K. split.
  - apply nodup_filter_keys. exact N.
  - intros p. rewrite in_map_iff. split.
    + intros [[q n] [E H]]. simpl in E. subst q.
      apply filter_In in H. destruct H as [H L]. simpl in L.
      apply Z.leb_le in L.
      apply (count_of_in p n _ N) in H. rewrite C in H. lia.
    + intros H.
      assert (Hin : In p (map fst (fold_left (fun groups k => bump k groups)
                                             keys []))).
      { apply K. right. apply occurrences_pos. lia. }
      apply in_map_iff in Hin. destruct Hin as [[q n] [E Hin]].
      simpl in E. subst q. exists (p, n). split; [reflexivity|].
      apply filter_In. split; [assumption|]. simpl. apply Z.leb_le.
      apply (count_of_in p n _ N) in Hin. rewrite C in Hin. lia.
Qed.

(** In the words of the specification: the orders of the user's branch
    with status [created] that were started today and whose vehicle
    carries the plate [p]. *)
Definition orders_started_today_of_plate (ctx : Ctx) (db : DB) (p : string)
  : list Order :=
  filter (fun o =>
            branch_eqb (o_branch o) (user_branch ctx)
            && String.eqb (o_status o) "created"
            && match o_started_at o with
               | Some t => date_of t =? date_of (now ctx)
               | None => false
               end
            && match o_vehicle o with
               | Some k =>
                   match find (fun v => v_id v =? k) (vehicles db) with
                   | Some v => String.eqb p (v_plate_number v)
                   | None => false
                   end
               | None => false
               end)
         (orders db).

Lemma occurrences_plates_today (ctx : Ctx) (db : DB) (p : string) :
  occurrences p (plates_today ctx db)
  = List.length (orders_started_today_of_plate ctx db p).
Proof.
  unfold occurrences, plates_today, started_today, started_orders,
    orders_started_today_of_plate, is_created, started_on, plate_of.
  induction (orders db) as [|o r IH]; simpl; [reflexivity|].
  destruct (branch_eqb (o_branch o) (user_branch ctx)); simpl; [|exact IH].
  destruct (String.eqb (o_status o) "created"); simpl; [|exact IH].
  destruct (o_started_at o) as [t|]; simpl; [|exact IH].
  destruct (date_of t =? date_of (now ctx)); simpl; [|exact IH].
  destruct (o_vehicle o) as [k|]; simpl; [|exact IH].
  destruct (find (fun v => v_id v =? k) (vehicles db)) as [v|]; simpl;
    [|exact IH].
  destruct (String.eqb p (v_plate_number v)); simpl; rewrite IH; reflexivity.
Qed.

(** C7, as the code has it: only orders of status [created] are counted.
    The KPI [repeated_vehicles_today] is the number of distinct plate
    numbers that have at least two orders of status [created] started
    today in the user's branch. *)
Theorem repeated_vehicles_today_counts (ctx : Ctx) (db : DB) :
  exists plates : list string,
    NoDup plates /\
    (forall p,
        In p plates <->
        (2 <= List.length (orders_started_today_of_plate ctx db p))%nat) /\
    k_repeated_vehicles_today (api_started_orders_kpis ctx db)
    = Z.of_nat (List.length plates) /\
    k_repeated_vehicles_today (started_orders_dashboard_statistics ctx db)
    = Z.of_nat (List.length plates).
Proof.
  destruct (repeated_groups (plates_today ctx db)) as [N I].
  eexists. split; [exact N|]. split.
  - intros p. rewrite I, occurrences_plates_today. reflexivity.
  - simpl. unfold repeated_vehicles_today. rewrite length_map. split; reflexivity.
Qed.

(** Two lists without repetition that hold the same elements have the
    same length: the number the theorem gives is the number of such
    plates. *)
Lemma same_elements_same_length (l l' : list string) :
  NoDup l -> NoDup l' -> (forall p, In p l <-> In p l') ->
  List.length l = List.length l'.
Proof.
  intros N N' H. apply Nat.le_antisymm;
    apply NoDup_incl_length; auto; intros p Hp; apply H; assumption.
Qed.

(** Today (day 20000) two orders were started for [ABC] and one for
    [XYZ]; one more for [XYZ] the day before. *)
Definition busy_day : DB :=
  Sample.with_orders Sample.garage
    [Sample.order 1 (Some 1) "created" 1728000000 None None;
     Sample.order 2 (Some 2) "created" 1728000100 None None;
     Sample.order 3 (Some 1) "created" 1728000200 None None;
     Sample.order 4 (Some 2) "created" 1727990000 None None].

(** The example of the specification. *)
Example repeated_vehicles_busy_day :
  api_started_orders_kpis Sample.ctx busy_day = mkKpis 4 3 1.
Proof. reflexivity. Qed.

(** The two orders for [ABC] were started today and are completed. *)
Definition finished_day : DB :=
  Sample.with_orders Sample.garage
    [Sample.order 1 (Some 1) "completed" 1728000000 None None;
     Sample.order 2 (Some 2) "created" 1728000100 None None;
     Sample.order 3 (Some 1) "completed" 1728000200 None None].

(** C7 as the specification words it fails on orders that are no longer
    of status [created]: the plate [ABC] has two orders started today in
    the branch, and the KPI is 0. *)
Lemma completed_orders_are_not_counted :
  map o_id
      (filter (fun o =>
                 branch_eqb (o_branch o) (user_branch Sample.ctx)
                 && Reports.started_on (date_of (now Sample.ctx)) o
                 && match Reports.plate_of finished_day o with
                    | Some p => String.eqb p "ABC"
                    | None => false
                    end)
              (orders finished_day))
  = [1; 3] /\
  k_repeated_vehicles_today (api_started_orders_kpis Sample.ctx finished_day) = 0.
Proof. split; reflexivity. Qed.

End KpiProofs.

(* ------------------------------------------------------------------ *)
(** ** Lines: [split] and [join] *)

Module LineFacts.

Import PyStr.



Lemma split_on_not_nil (sep : ascii) (s : string) : split_on sep s <> [].
Proof.
  destruct s as [|c r]; simpl; [discriminate|].
  destruct (Ascii.eqb c sep); [discriminate|].
  destruct (split_on sep r); discriminate.
Qed.









Lemma filter_none {A : Type} (f : A -> bool) (l : list A) :
  Forall (fun x => f x = false) l -> filter f l = [].
Proof.
  induction 1 as [|x r Hx _ IH]; simpl; [reflexivity|].
  rewrite Hx. assumption.
Qed.



End LineFacts.

(* ------------------------------------------------------------------ *)
(** ** The services line of [update_order_details] *)

Module DescriptionProofs.

Import PyStr Query Views Facts LineFacts.














(** A service order whose description already has a services line. *)
Definition order_with_services : Order :=
  with_description (Sample.order 1 (Some 1) "created" 1728000000 None None)
                   (Some ("Brake noise" ++ nl ++ "services: Wash" ++ nl ++ nl
                            ++ "Call first")).

Example services_line_replaced :
  o_description
    (update_order_details Sample.garage order_with_services
                          ["Oil change"; "Polish"] None None None)
  = Some ("Brake noise" ++ nl ++ "Call first" ++ nl
            ++ "Services: Oil change, Polish").
Proof. reflexivity. Qed.






End DescriptionProofs.

(* ------------------------------------------------------------------ *)
(** ** Starting the same plate twice *)

Module TwiceProofs.

Import PyStr Query Services Views Facts ServiceFacts StartOrderProofs
       InvariantProofs.


(** A request that does not confirm the reuse of a customer. *)
Definition unconfirmed (data : StartOrderData) : Prop :=
  so_use_existing_customer data = false /\
  truthy_int (so_existing_customer_id data) = false.





Lemma filter_nil_in {A : Type} (f : A -> bool) (l : list A) :
  (forall x, In x l -> f x = false) -> filter f l = [].
Proof.
  intros H. apply LineFacts.filter_none. apply Forall_forall. assumption.
Qed.

(** With a vehicle of the plate in the branch, an unconfirmed request is
    answered from the database as it is: by the vehicle's last order of
    status [created], or else by the customer and vehicle found. *)
Lemma start_order_probe (ctx : Ctx) (data : StartOrderData) (db : DB)
      (ev : Vehicle) (ec : Customer) :
  unconfirmed data ->
  let plate := upper (strip (or_empty (so_plate_number data))) in
  plate <> EmptyString ->
  In (default "service" (so_order_type data)) ["service"; "sales"; "inquiry"] ->
  first (vehicles_by_plate db plate (user_branch ctx)) = Some (ev, ec) ->
  api_start_order ctx (Some data) db
  = (match latest (created_orders_of db (v_id ev)) with
     | Some eo => started_response 200 eo plate true
     | None => ExistingCustomer ec ev
     end, db).
Proof.
  intros [U1 U2] plate Hp Ht Hf. unfold api_start_order. fold plate.
  apply truthy_true in Hp. apply in_list_spec in Ht.
  rewrite Hp, Ht, Hf, U1, U2. cbn [negb andb].
  destruct (latest _); reflexivity.
Qed.





(** A plate the garage does not know. *)
Definition start_new : StartOrderData :=
  mkStartOrderData (Some " new1 ") (Some "service") false None ["Oil change"] None.

(** The first call creates order 1, the second returns it. *)
Example start_new_twice :
  let first_call := api_start_order Sample.ctx (Some start_new) Sample.garage in
  fst first_call = OrderStarted 201 1 "ORD-NEW" "NEW1" 1728000000 false /\
  api_start_order Sample.ctx_later (Some start_new) (snd first_call)
  = (OrderStarted 200 1 "ORD-NEW" "NEW1" 1728000000 true, snd first_call) /\
  map (fun o => (o_id o, o_vehicle o, o_status o, o_description o))
      (orders (snd first_call))
  = [(1, Some 4, "created", Some "Order started for NEW1: Oil change")].
Proof. repeat split; reflexivity. Qed.



End TwiceProofs.


(* ------------------------------------------------------------------ *)
(** ** [api_start_order]: responses, writes and the order created *)

Module StartOrderMore.

Import PyStr Query Services Views Facts ServiceFacts StartOrderProofs
       InvariantProofs.

(** The plate and the order type [api_start_order] works with. *)
Definition plate_of_request (data : StartOrderData) : string :=
  upper (strip (or_empty (so_plate_number data))).

Definition type_of_request (data : StartOrderData) : string :=
  default "service" (so_order_type data).

(** The caller confirms the reuse of the customer [k]. *)
Definition confirms (data : StartOrderData) (k : Z) : Prop :=
  so_use_existing_customer data = true /\
  so_existing_customer_id data = Some k /\ k <> 0.

Lemma customer_in_branch_some (db : DB) (k : Z) (b : Branch) (c : Customer) :
  customer_in_branch db k b = Some c ->
  In c (customers db) /\ c_id c = k /\ c_branch c = b.
Proof.
  unfold customer_in_branch. intros H. apply find_some in H.
  destruct H as [Hin Hp]. apply andb_true_iff in Hp. destruct Hp as [Hk Hb].
  apply Z.eqb_eq in Hk. apply branch_eqb_spec in Hb. auto.
Qed.


(** What resolving the customer does to the database. *)
Lemma start_order_customer_frame (ctx : Ctx) (data : StartOrderData)
      (plate : string) (db db1 : DB) (c : Customer) :
  start_order_customer ctx data plate db = Some (c, db1) ->
  vehicles db1 = vehicles db /\ orders db1 = orders db /\
  service_types db1 = service_types db /\
  service_addons db1 = service_addons db /\
  inventory_items db1 = inventory_items db /\
  catalogue_raises db1 = catalogue_raises db /\
  c_branch c = user_branch ctx /\
  ((In c (customers db) /\ db1 = db) \/
   (customers db1 = (customers db ++ [c])%list /\
    c_id c = next_id c_id (customers db))).
Proof.
  unfold start_order_customer.
  destruct (so_use_existing_customer data
            && truthy_int (so_existing_customer_id data)).
  - destruct (customer_in_branch _ _ _) as [c0|] eqn:F; [|discriminate].
    intros H. inversion H; subst.
    apply customer_in_branch_some in F. destruct F as [Hin [_ Hb]].
    repeat split; auto.
  - intros H. inversion H as [H1]. apply customer_service_frame in H1. exact H1.
Qed.

(** The two ways the transaction ends. *)
Lemma start_order_commit_outcome (ctx : Ctx) (data : StartOrderData)
      (plate order_type : string) (db : DB) :
  (start_order_customer ctx data plate db = None /\
   start_order_commit ctx data plate order_type db
   = (ErrorResponse 500 "Server error: No Customer matches the given query.", db))
  \/
  exists c db1 v db2,
    start_order_customer ctx data plate db = Some (c, db1) /\
    create_or_get_vehicle db1 c plate None None = (v, db2) /\
    ((exists eo,
         first (created_orders_of db2 (v_id v)) = Some eo /\
         start_order_commit ctx data plate order_type db
         = (started_response 201 eo plate false, db2)) \/
     (first (created_orders_of db2 (v_id v)) = None /\
      start_order_commit ctx data plate order_type db
      = (OrderStarted 201 (next_id o_id (orders db2)) (new_order_number ctx)
                      plate (now ctx) false,
         add_order db2
           (new_order ctx db2 c (Some (v_id v)) order_type
                      (start_description plate (so_service_selection data))
                      "medium" (stored_duration db2 order_type data))))).
Proof.
  destruct (start_order_customer ctx data plate db) as [[c db1]|] eqn:R.
  - right.
    destruct (create_or_get_vehicle db1 c plate None None) as [v db2] eqn:V.
    exists c, db1, v, db2. split; [reflexivity|]. split; [exact V|].
    destruct (first (created_orders_of db2 (v_id v))) as [eo|] eqn:F.
    + left. exists eo. split; [reflexivity|].
      unfold start_order_commit. rewrite R, V, F. reflexivity.
    + right. split; [reflexivity|].
      unfold start_order_commit. rewrite R, V, F. reflexivity.
  - left. split; [reflexivity|].
    unfold start_order_commit. rewrite R. reflexivity.
Qed.

(** A call answers before the transaction, leaving the database as it
    is, or runs the transaction. *)
Lemma start_order_early_or_commit (ctx : Ctx) (data : StartOrderData) (db : DB) :
  (exists r,
      api_start_order ctx (Some data) db = (r, db) /\
      ((exists e, r = ErrorResponse 400 e) \/
       (exists c v, r = ExistingCustomer c v) \/
       (exists eo, r = started_response 200 eo (plate_of_request data) true))) \/
  (plate_of_request data <> EmptyString /\
   In (type_of_request data) ["service"; "sales"; "inquiry"] /\
   api_start_order ctx (Some data) db
   = start_order_commit ctx data (plate_of_request data) (type_of_request data) db).
Proof.
  unfold api_start_order, plate_of_request, type_of_request.
  set (plate := upper (strip (or_empty (so_plate_number data)))).
  set (ot := default "service" (so_order_type data)).
  destruct (truthy plate) eqn:Tp; cbn [negb].
  2:{ left. eexists. split; [reflexivity|]. left. eexists. reflexivity. }
  destruct (in_list ot ["service"; "sales"; "inquiry"]) eqn:Tt; cbn [negb].
  2:{ left. eexists. split; [reflexivity|]. left. eexists. reflexivity. }
  apply truthy_true in Tp. apply in_list_spec in Tt.
  destruct (first (vehicles_by_plate db plate (user_branch ctx))) as [[ev ec]|].
  - destruct (latest (created_orders_of db (v_id ev))) as [eo|];
      destruct (negb (so_use_existing_customer data)
                && negb (truthy_int (so_existing_customer_id data))).
    + left. eexists. split; [reflexivity|]. right. right. exists eo. reflexivity.
    + right. auto.
    + left. eexists. split; [reflexivity|]. right. left. exists ec, ev. reflexivity.
    + right. auto.
  - right. auto.
Qed.

Lemma started_response_status (s : Z) (o : Order) (plate : string) (e : bool) :
  response_status (started_response s o plate e) = s \/
  response_status (started_response s o plate e) = 500.
Proof.
  unfold started_response. destruct (o_started_at o); simpl; auto.
Qed.

(** X1.  [api_start_order] answers with status 200, 201, 400 or 500, and an
    answer of status 200 or 400 (a validation error, the customer found for
    the plate, or the order already started) comes with no change to the
    database. *)
Theorem start_order_answers_without_writing (ctx : Ctx)
        (body : option StartOrderData) (db : DB) :
  In (response_status (fst (api_start_order ctx body db))) [200; 201; 400; 500] /\
  (response_status (fst (api_start_order ctx body db)) = 200 \/
   response_status (fst (api_start_order ctx body db)) = 400 ->
   snd (api_start_order ctx body db) = db).
Proof.
  destruct body as [data|]; [|simpl; auto].
  destruct (start_order_early_or_commit ctx data db)
    as [[r [E Hr]]|[_ [_ E]]]; rewrite E; cbn [fst snd].
  - split; [|reflexivity].
    destruct Hr as [[e Hr]|[[c [v Hr]]|[eo Hr]]]; subst r; simpl; auto.
    destruct (started_response_status 200 eo (plate_of_request data) true)
      as [H|H]; rewrite H; simpl; auto.
  - destruct (start_order_commit_outcome ctx data (plate_of_request data)
                (type_of_request data) db)
      as [[_ O]|[c [db1 [v [db2 [_ [_ [[eo [_ O]]|[_ O]]]]]]]]];
      rewrite O; cbn [fst snd].
    + simpl. split; [auto|]. intros [H|H]; discriminate H.
    + destruct (started_response_status 201 eo (plate_of_request data) false)
        as [H|H]; rewrite H; simpl; split; auto;
        intros [H'|H']; discriminate H'.
    + simpl. split; [auto|]. intros [H|H]; discriminate H.
Qed.



(** X2.  [api_start_order] only adds rows: at most one customer, one
    vehicle and one order, after the rows there were; no customer, vehicle
    or order is changed or removed, and the catalogue is left alone. *)
Theorem start_order_only_appends (ctx : Ctx) (body : option StartOrderData)
        (db : DB) :
  exists cs vs os,
    customers (snd (api_start_order ctx body db)) = (customers db ++ cs)%list /\
    vehicles (snd (api_start_order ctx body db)) = (vehicles db ++ vs)%list /\
    orders (snd (api_start_order ctx body db)) = (orders db ++ os)%list /\
    (List.length cs <= 1)%nat /\ (List.length vs <= 1)%nat /\
    (List.length os <= 1)%nat /\
    service_types (snd (api_start_order ctx body db)) = service_types db /\
    service_addons (snd (api_start_order ctx body db)) = service_addons db /\
    inventory_items (snd (api_start_order ctx body db)) = inventory_items db.
Proof.
  assert (Same : exists cs vs os,
             customers db = (customers db ++ cs)%list /\
             vehicles db = (vehicles db ++ vs)%list /\
             orders db = (orders db ++ os)%list /\
             (List.length cs <= 1)%nat /\ (List.length vs <= 1)%nat /\
             (List.length os <= 1)%nat /\
             service_types db = service_types db /\
             service_addons db = service_addons db /\
             inventory_items db = inventory_items db).
  { exists [], [], []. rewrite !app_nil_r. simpl. repeat split; auto. }
  destruct body as [data|]; [|exact Same].
  destruct (start_order_early_or_commit ctx data db)
    as [[r [E _]]|[_ [_ E]]]; rewrite E; cbn [snd]; [exact Same|].
  destruct (start_order_commit_outcome ctx data (plate_of_request data)
              (type_of_request data) db)
    as [[_ O]|[c [db1 [v [db2 [R [V O]]]]]]].
  { rewrite O. exact Same. }
  apply start_order_customer_frame in R. apply vehicle_service_frame in V.
  destruct R as [V1 [O1 [S1 [A1 [I1 [_ [_ C1]]]]]]].
  destruct V as [C2 [O2 [S2 [A2 [I2 [_ [_ [_ V2]]]]]]]].
  assert (Hc : exists cs, customers db2 = (customers db ++ cs)%list /\
                          (List.length cs <= 1)%nat).
  { rewrite C2. destruct C1 as [[_ E1]|[E1 _]].
    - subst db1. exists []. rewrite app_nil_r. simpl. auto.
    - exists [c]. simpl. auto. }
  assert (Hv : exists vs, vehicles db2 = (vehicles db ++ vs)%list /\
                          (List.length vs <= 1)%nat).
  { destruct V2 as [[_ E2]|[E2 _]].
    - subst db2. exists []. rewrite app_nil_r, V1. simpl. auto.
    - exists [v]. rewrite E2, V1. simpl. auto. }
  destruct Hc as [cs [Hc Lc]]. destruct Hv as [vs [Hv Lv]].
  exists cs, vs.
  destruct O as [[eo [_ O]]|[_ O]]; rewrite O; cbn [snd add_order customers
    vehicles orders service_types service_addons inventory_items].
  - exists []. rewrite app_nil_r. simpl. repeat split; auto; congruence.
  - eexists [_]. rewrite O2, O1. simpl. repeat split; auto; congruence.
Qed.




(** X4.  A call that confirms the reuse of a customer who is not a
    customer of the user's branch is answered with an error and changes
    nothing: no order is started for the customer of another branch. *)
Theorem start_order_refuses_foreign_customer (ctx : Ctx) (data : StartOrderData)
        (db : DB) (k : Z) :
  confirms data k ->
  customer_in_branch db k (user_branch ctx) = None ->
  snd (api_start_order ctx (Some data) db) = db /\
  exists status error,
    fst (api_start_order ctx (Some data) db) = ErrorResponse status error /\
    (status = 400 \/ status = 500).
Proof.
  intros [U [I K]] Hnone.
  assert (T : so_use_existing_customer data
              && truthy_int (so_existing_customer_id data) = true).
  { rewrite U, I. simpl. apply Z.eqb_neq in K. rewrite K. reflexivity. }
  assert (C : forall plate ot,
             start_order_commit ctx data plate ot db
             = (ErrorResponse 500 "Server error: No Customer matches the given query.",
                db)).
  { intros plate ot. unfold start_order_commit, start_order_customer.
    rewrite T, I. cbn [int_or_0]. rewrite Hnone. reflexivity. }
  assert (Done : forall status error,
             status = 400 \/ status = 500 ->
             snd (ErrorResponse status error, db) = db /\
             exists status' error',
               fst (ErrorResponse status error, db) = ErrorResponse status' error' /\
               (status' = 400 \/ status' = 500)).
  { intros status error H. split; [reflexivity|].
    exists status, error. split; [reflexivity | exact H]. }
  unfold api_start_order. cbv beta iota zeta.
  destruct (negb (truthy (upper (strip (or_empty (so_plate_number data))))));
    [apply Done; auto|].
  destruct (negb (in_list (default "service" (so_order_type data))
                          ["service"; "sales"; "inquiry"]));
    [apply Done; auto|].
  rewrite U. cbn [negb andb].
  destruct (first (vehicles_by_plate db
                     (upper (strip (or_empty (so_plate_number data))))
                     (user_branch ctx))) as [[ev ec]|];
    [destruct (latest (created_orders_of db (v_id ev)))|];
    rewrite C; apply Done; auto.
Qed.

(** Bob, a customer of branch 2, chosen by a user of branch 1. *)
Definition start_for_bob : StartOrderData :=
  mkStartOrderData (Some "new2") (Some "service") true (Some 2) [] None.

Lemma start_order_refuses_foreign_customer_witness :
  snd (api_start_order Sample.ctx (Some start_for_bob) Sample.garage)
  = Sample.garage /\
  exists status error,
    fst (api_start_order Sample.ctx (Some start_for_bob) Sample.garage)
    = ErrorResponse status error /\
    (status = 400 \/ status = 500).
Proof.
  apply (start_order_refuses_foreign_customer Sample.ctx start_for_bob
           Sample.garage 2).
  - split; [reflexivity|]. split; [reflexivity | discriminate].
  - reflexivity.
Defined.




End StartOrderMore.

(* ------------------------------------------------------------------ *)
(** ** [started_order_detail]: completing and updating an order *)

Module LifecycleProofs.

Import PyStr Query Services Views Reports Facts ServiceFacts StartOrderProofs
       InvariantProofs.

Lemma started_order_detail_some (ctx : Ctx) (k : Z) (action : Action) (db db' : DB)
      (r : Response) :
  started_order_detail ctx k action db = Some (r, db') ->
  exists order,
    order_in_branch db k (user_branch ctx) = Some order /\
    In order (orders db) /\ o_id order = k /\ o_branch order = user_branch ctx /\
    match action with
    | UpdateOrderDetails services est item_id item_quantity =>
        db' = save_order db (update_order_details db order services est item_id
                                                  item_quantity)
    | CompleteOrder => db' = save_order db (with_completion order (now ctx))
    end.
Proof.
  unfold started_order_detail.
  destruct (order_in_branch db k (user_branch ctx)) as [order|] eqn:F;
    [|discriminate].
  intros H. exists order. split; [reflexivity|].
  apply FormProofs.order_in_branch_in in F. destruct F as [Hin [Hk Hb]].
  repeat split; auto.
  destruct action; inversion H; reflexivity.
Qed.


Lemma update_order_details_keeps (db : DB) (o : Order) (services : list string)
      (est item_id item_quantity : option string) :
  let o' := update_order_details db o services est item_id item_quantity in
  o_id o' = o_id o /\ o_vehicle o' = o_vehicle o /\ o_status o' = o_status o.
Proof.
  unfold update_order_details, update_item.
  destruct (String.eqb (o_type o) "sales" && truthy (or_empty item_id));
    [destruct (parse_int (or_empty item_id));
     [destruct (find _ (inventory_items db))|]|];
    destruct (nonempty services);
    destruct (truthy (or_empty est));
    try destruct (parse_int (or_empty est));
    repeat split; reflexivity.
Qed.

Lemma length_filter_map_le {A : Type} (p : A -> bool) (f : A -> A) (l : list A) :
  (forall x, In x l -> f x = x \/ p (f x) = false) ->
  (List.length (filter p (map f l)) <= List.length (filter p l))%nat.
Proof.
  induction l as [|x r IH]; simpl; intros H; [lia|].
  assert (IH' := IH (fun y Hy => H y (or_intror Hy))).
  destruct (H x (or_introl eq_refl)) as [E|E]; rewrite E.
  - destruct (p x); simpl; lia.
  - destruct (p x); simpl; lia.
Qed.

Lemma length_filter_map_eq {A : Type} (p : A -> bool) (f : A -> A) (l : list A) :
  (forall x, In x l -> p (f x) = p x) ->
  List.length (filter p (map f l)) = List.length (filter p l).
Proof.
  induction l as [|x r IH]; simpl; intros H; [reflexivity|].
  rewrite (H x (or_introl eq_refl)).
  assert (IH' := IH (fun y Hy => H y (or_intror Hy))).
  destruct (p x); simpl; lia.
Qed.

Lemma same_key_same_row (l : list Order) (x y : Order) :
  NoDup (map o_id l) -> In x l -> In y l -> o_id x = o_id y -> x = y.
Proof.
  induction l as [|z r IH]; simpl; intros N Hx Hy E; [contradiction|].
  inversion N as [|? ? Hnot Hr]; subst.
  destruct Hx as [Hx|Hx], Hy as [Hy|Hy]; subst; auto.
  - exfalso. apply Hnot. rewrite E. apply in_map. assumption.
  - exfalso. apply Hnot. rewrite <- E. apply in_map. assumption.
Qed.

(** X7.  The two actions of [started_order_detail] keep the invariant of
    one order of status [created] per vehicle, on a database whose order
    keys are unique: completing an order takes one away at most, and
    updating the order details changes neither status nor vehicle. *)
Theorem started_order_detail_keeps_one_created (ctx : Ctx) (k : Z) (action : Action)
        (db db' : DB) (r : Response) :
  NoDup (map o_id (orders db)) ->
  one_created_per_vehicle db ->
  started_order_detail ctx k action db = Some (r, db') ->
  one_created_per_vehicle db'.
Proof.
  intros N Inv H v.
  apply started_order_detail_some in H.
  destruct H as [order [_ [Hin [_ [_ H]]]]].
  specialize (Inv v). unfold created_orders_of in *.
  destruct action as [services est item_id item_quantity|]; subst db';
    cbn [save_order orders].
  - rewrite length_filter_map_eq; [exact Inv|].
    intros x Hx.
    destruct (update_order_details_keeps db order services est item_id
                item_quantity) as [Fid [Fv Fs]].
    rewrite Fid.
    destruct (o_id x =? o_id order) eqn:E; [|reflexivity].
    apply Z.eqb_eq in E.
    rewrite (same_key_same_row (orders db) x order N Hx Hin E).
    unfold vehicle_is. rewrite Fv, Fs. reflexivity.
  - etransitivity; [|exact Inv].
    apply length_filter_map_le. intros x Hx.
    cbn [with_completion o_id].
    destruct (o_id x =? o_id order); [right | left; reflexivity].
    cbn [with_completion o_status]. rewrite andb_false_r. reflexivity.
Qed.

(** X8.  Completing an order takes it off the list of started orders
    and leaves the list otherwise as it was: the started orders of the
    branch are afterwards those whose key is not the key completed.  Every
    order of that key then has status [completed] and the current time as
    its completion time, whatever its status was before. *)
Theorem complete_order_leaves_started_list (ctx : Ctx) (k : Z) (db db' : DB)
        (r : Response) :
  started_order_detail ctx k CompleteOrder db = Some (r, db') ->
  started_orders ctx db'
  = filter (fun x => negb (o_id x =? k)) (started_orders ctx db) /\
  (forall x, In x (orders db') -> o_id x = k ->
             o_status x = "completed" /\ o_completed_at x = Some (now ctx)) /\
  (k_total_started (api_started_orders_kpis ctx db')
   <= k_total_started (api_started_orders_kpis ctx db)) /\
  r = HttpRedirect "tracker:started_orders_dashboard".
Proof.
  intros H. assert (H' := H).
  apply started_order_detail_some in H.
  destruct H as [order [F [_ [Hk [_ Hdb]]]]]. subst db'.
  assert (S : started_orders ctx (save_order db (with_completion order (now ctx)))
              = filter (fun x => negb (o_id x =? k)) (started_orders ctx db)).
  { unfold started_orders. cbn [save_order orders with_completion o_id].
    rewrite Hk.
    induction (orders db) as [|x l IH]; [reflexivity|].
    cbn [map filter].
    destruct (o_id x =? k) eqn:E.
    - unfold is_created at 1. cbn [o_status o_branch].
      rewrite andb_false_r.
      destruct (branch_eqb (o_branch x) (user_branch ctx) && is_created x);
        cbn [filter]; rewrite ?E; cbn [negb]; exact IH.
    - destruct (branch_eqb (o_branch x) (user_branch ctx) && is_created x);
        cbn [filter]; rewrite ?E; cbn [negb]; rewrite IH; reflexivity. }
  split; [exact S|]. split; [|split].
  - intros x Hx Hid. cbn [save_order orders] in Hx.
    apply in_map_iff in Hx. destruct Hx as [y [Ey Hy]].
    cbn [with_completion o_id] in Ey.
    destruct (o_id y =? o_id order) eqn:E.
    + subst x. split; reflexivity.
    + subst x. apply Z.eqb_neq in E. congruence.
  - cbn [api_started_orders_kpis k_total_started]. rewrite S.
    apply inj_le. apply filter_length_le.
  - unfold started_order_detail in H'. rewrite F in H'. inversion H'. reflexivity.
Qed.

(** The garage after order 1 is completed. *)
Definition completed_db : DB :=
  save_order Sample.db_one_order
    (with_completion (Sample.order 1 (Some 1) "created" 1728000000 (Some 60) None)
                     (now Sample.ctx_later)).

Lemma started_order_detail_keeps_one_created_witness :
  one_created_per_vehicle completed_db.
Proof.
  apply (started_order_detail_keeps_one_created Sample.ctx_later 1 CompleteOrder
           Sample.db_one_order completed_db
           (HttpRedirect "tracker:started_orders_dashboard")).
  - simpl. repeat constructor. intros [].
  - intros v. unfold created_orders_of.
    etransitivity; [apply filter_length_le|]. simpl. lia.
  - reflexivity.
Defined.

Lemma complete_order_leaves_started_list_witness :
  started_orders Sample.ctx_later completed_db
  = filter (fun x => negb (o_id x =? 1))
           (started_orders Sample.ctx_later Sample.db_one_order) /\
  (forall x, In x (orders completed_db) -> o_id x = 1 ->
             o_status x = "completed" /\
             o_completed_at x = Some (now Sample.ctx_later)) /\
  (k_total_started (api_started_orders_kpis Sample.ctx_later completed_db)
   <= k_total_started (api_started_orders_kpis Sample.ctx_later Sample.db_one_order)) /\
  HttpRedirect "tracker:started_orders_dashboard"
  = HttpRedirect "tracker:started_orders_dashboard".
Proof.
  apply (complete_order_leaves_started_list Sample.ctx_later 1 Sample.db_one_order
           completed_db (HttpRedirect "tracker:started_orders_dashboard")).
  reflexivity.
Defined.

Example completed_order_is_off_the_list :
  map o_id (started_orders Sample.ctx Sample.db_one_order) = [1] /\
  map o_id (started_orders Sample.ctx completed_db) = [].
Proof. split; reflexivity. Qed.

(** X9.  Once the orders of status [created] of a plate's vehicle are
    completed, a new unconfirmed [api_start_order] for the plate does not
    return the completed order and starts nothing: it answers with the
    customer and the vehicle found, for the caller to confirm. *)
Theorem start_after_complete_asks_again (ctx ctx' : Ctx) (data : StartOrderData)
        (db db' : DB) (k : Z) (r : Response) (ev : Vehicle) (ec : Customer) :
  TwiceProofs.unconfirmed data ->
  upper (strip (or_empty (so_plate_number data))) <> EmptyString ->
  In (default "service" (so_order_type data)) ["service"; "sales"; "inquiry"] ->
  user_branch ctx' = user_branch ctx ->
  first (vehicles_by_plate db (upper (strip (or_empty (so_plate_number data))))
                           (user_branch ctx)) = Some (ev, ec) ->
  (forall x, In x (created_orders_of db (v_id ev)) -> o_id x = k) ->
  started_order_detail ctx k CompleteOrder db = Some (r, db') ->
  api_start_order ctx' (Some data) db' = (ExistingCustomer ec ev, db').
Proof.
  intros U Hp Ht B F Hall H.
  apply started_order_detail_some in H.
  destruct H as [order [_ [_ [Hk [_ Hdb]]]]]. subst db'.
  set (db' := save_order db (with_completion order (now ctx))).
  assert (Hv : vehicles_by_plate db' (upper (strip (or_empty (so_plate_number data))))
                                 (user_branch ctx')
               = vehicles_by_plate db (upper (strip (or_empty (so_plate_number data))))
                                   (user_branch ctx)).
  { rewrite B. reflexivity. }
  assert (Hc : created_orders_of db' (v_id ev) = []).
  { unfold created_orders_of, db'. cbn [save_order orders].
    apply TwiceProofs.filter_nil_in. intros x Hx.
    apply in_map_iff in Hx. destruct Hx as [y [Ey Hy]].
    cbn [with_completion o_id] in Ey.
    destruct (o_id y =? o_id order) eqn:E.
    - subst x. cbn [o_status]. apply andb_false_r.
    - subst x.
      destruct (vehicle_is (v_id ev) y && String.eqb (o_status y) "created") eqn:P;
        [|reflexivity].
      exfalso. apply Z.eqb_neq in E. apply E. rewrite Hk. apply Hall.
      unfold created_orders_of. apply filter_In. auto. }
  rewrite (TwiceProofs.start_order_probe ctx' data db' ev ec U Hp Ht)
    by (rewrite Hv; exact F).
  rewrite Hc. reflexivity.
Qed.

Lemma start_after_complete_asks_again_witness :
  api_start_order Sample.ctx_later (Some Sample.start_abc) completed_db
  = (ExistingCustomer Sample.alice Sample.car_abc, completed_db).
Proof.
  apply (start_after_complete_asks_again Sample.ctx_later Sample.ctx_later
           Sample.start_abc Sample.db_one_order completed_db 1
           (HttpRedirect "tracker:started_orders_dashboard")).
  - split; reflexivity.
  - discriminate.
  - simpl. auto.
  - reflexivity.
  - reflexivity.
  - intros x [H|[]]. subst x. reflexivity.
  - reflexivity.
Defined.

End LifecycleProofs.

(* ------------------------------------------------------------------ *)
(** ** The extraction and modal views: what a request writes *)

Module FormMore.

Import PyStr Query Services Views Facts ServiceFacts InvariantProofs
       StartOrderMore.







(** Alice as owner of the car [ABC], with a services list, for order 1. *)
Definition form_alice_services : Form :=
  mkForm (Some "1") (Some "service") (Some "personal") (Some "owner") None None
         (Some " Alice ") (Some "0700") None None (Some "Brake check")
         (Some "45") (Some "high") (Some "Wash, , Polish ") (Some "abc") None None.


Example extraction_update_stored :
  map (fun o => (o_id o, o_customer o, o_vehicle o, o_status o, o_priority o,
                 o_estimated_duration o, o_description o))
      (orders (snd (api_update_order_from_extraction Sample.ctx form_alice_services
                      Sample.db_one_order)))
  = [(1, 1, Some 1, "created", "high", Some 45,
      Some ("Brake check" ++ nl ++ "Services: Wash, Polish"))].
Proof. reflexivity. Qed.






End FormMore.

From Stdlib Require Import Permutation.

(* ------------------------------------------------------------------ *)
(** ** The overrun report: order and content *)

Module OverrunMore.

Import PyStr Query Views Reports Facts.

(** Report times from the latest to the earliest, a missing time last. *)
Fixpoint descending (l : list Order) : Prop :=
  match l with
  | a :: (b :: _) as r => reported_leb b a = true /\ descending r
  | _ => True
  end.

Lemma reported_leb_total (a b : Order) :
  reported_leb a b = false -> reported_leb b a = true.
Proof.
  unfold reported_leb.
  destruct (o_overrun_reported_at a) as [x|], (o_overrun_reported_at b) as [y|];
    try discriminate; try reflexivity.
  intros H. apply Z.leb_gt in H. apply Z.leb_le. lia.
Qed.



Lemma insert_desc_permutation (o : Order) (l : list Order) :
  Permutation (insert_desc o l) (o :: l).
Proof.
  induction l as [|x r IH]; simpl; [apply Permutation_refl|].
  destruct (reported_leb o x).
  - apply perm_trans with (x :: o :: r).
    + apply perm_skip. exact IH.
    + apply perm_swap.
  - apply Permutation_refl.
Qed.

Lemma order_by_reported_desc_permutation (l : list Order) :
  Permutation (order_by_reported_desc l) l.
Proof.
  induction l as [|x r IH]; simpl; [apply perm_nil|].
  apply perm_trans with (x :: order_by_reported_desc r).
  - apply insert_desc_permutation.
  - apply perm_skip. exact IH.
Qed.

Lemma insert_desc_descending (o : Order) (l : list Order) :
  descending l -> descending (insert_desc o l).
Proof.
  induction l as [|x r IH]; [simpl; auto|].
  intros D. cbn [insert_desc].
  destruct (reported_leb o x) eqn:E.
  - destruct r as [|y r'].
    + simpl. auto.
    + destruct D as [Dxy Dr]. specialize (IH Dr). cbn [insert_desc] in *.
      destruct (reported_leb o y) eqn:E'.
      * split; assumption.
      * split; assumption.
  - split; [|exact D]. apply reported_leb_total. exact E.
Qed.

Lemma order_by_reported_desc_descending (l : list Order) :
  descending (order_by_reported_desc l).
Proof.
  induction l as [|x r IH]; simpl; [exact I|].
  apply insert_desc_descending. exact IH.
Qed.


Lemma descending_firstn (n : nat) (l : list Order) :
  descending l -> descending (firstn n l).
Proof.
  revert l. induction n as [|n IH]; intros l D; [exact I|].
  destruct l as [|a r]; [exact I|].
  destruct r as [|b r'].
  - destruct n; exact I.
  - destruct D as [Dba Dr]. specialize (IH (b :: r') Dr).
    destruct n as [|n']; [exact I|].
    cbn [firstn] in *. split; assumption.
Qed.

(** The reported orders the user sees: those of the branch, or all of
    them for a user without a branch. *)
Definition reported_orders (ctx : Ctx) (db : DB) : list Order :=
  filter (fun o => match o_overrun_reason o with Some _ => true | None => false end)
         (match user_branch ctx with
          | Some _ => filter (fun o => branch_eqb (o_branch o) (user_branch ctx))
                             (orders db)
          | None => orders db
          end).

(** X13.  The overrun report lists the reported orders the user sees,
    each once, from the latest report time to the earliest, and its
    [recent_overruns] are the first fifty of them: at most fifty records,
    all of them when there are fewer. *)
Theorem overrun_report_is_ordered (ctx : Ctx) (db : DB) :
  Permutation (overruns ctx db) (reported_orders ctx db) /\
  descending (overruns ctx db) /\
  descending (firstn 50 (overruns ctx db)) /\
  recent_overruns ctx db = map overrun_record (firstn 50 (overruns ctx db)) /\
  List.length (recent_overruns ctx db)
  = Nat.min 50 (List.length (reported_orders ctx db)).
Proof.
  assert (P : Permutation (overruns ctx db) (reported_orders ctx db))
    by apply order_by_reported_desc_permutation.
  split; [exact P|]. split; [apply order_by_reported_desc_descending|].
  split; [apply descending_firstn; apply order_by_reported_desc_descending|].
  split; [reflexivity|].
  unfold recent_overruns. rewrite length_map, length_firstn.
  rewrite (Permutation_length P). reflexivity.
Qed.





End OverrunMore.

(* ------------------------------------------------------------------ *)
(** ** The dashboard: statistics and the grouping by plate *)

Module DashboardMore.

Import PyStr Query Views Reports Facts KpiProofs.

Lemma length_filter_split {A : Type} (f : A -> bool) (l : list A) :
  (List.length (filter f l) + List.length (filter (fun x => negb (f x)) l)
   = List.length l)%nat.
Proof.
  induction l as [|x r IH]; simpl; [reflexivity|].
  destruct (f x); simpl; lia.
Qed.

Lemma occurrences_without (p q : string) (keys : list string) :
  q <> p ->
  occurrences q (filter (fun k => negb (String.eqb p k)) keys) = occurrences q keys.
Proof.
  intros N. unfold occurrences. f_equal.
  induction keys as [|k r IH]; simpl; [reflexivity|].
  destruct (String.eqb p k) eqn:E; simpl.
  - apply String.eqb_eq in E. subst k.
    replace (String.eqb q p) with false
      by (symmetry; apply String.eqb_neq; exact N).
    exact IH.
  - destruct (String.eqb q k); rewrite IH; reflexivity.
Qed.

(** Keys that occur twice each take two places each. *)
Lemma twice_each (ps keys : list string) :
  NoDup ps -> (forall p, In p ps -> (2 <= occurrences p keys)%nat) ->
  (2 * List.length ps <= List.length keys)%nat.
Proof.
  revert keys. induction ps as [|p r IH]; intros keys N H; [simpl; lia|].
  inversion N as [|? ? Hnot Hr]; subst.
  pose proof (length_filter_split (String.eqb p) keys) as S.
  assert (Hp : (2 <= occurrences p keys)%nat) by (apply H; left; reflexivity).
  unfold occurrences in Hp.
  assert (Hrest : (2 * List.length r
                   <= List.length (filter (fun k => negb (String.eqb p k)) keys))%nat).
  { apply IH; [exact Hr|]. intros q Hq.
    rewrite occurrences_without.
    - apply H. right. exact Hq.
    - intros E. subst q. contradiction. }
  simpl List.length. lia.
Qed.

Lemma length_plates_today (ctx : Ctx) (db : DB) :
  (List.length (plates_today ctx db) <= List.length (started_today ctx db))%nat.
Proof.
  unfold plates_today. induction (started_today ctx db) as [|o r IH]; simpl;
    [lia|].
  rewrite length_app. destruct (plate_of db o); simpl; lia.
Qed.

(** X15.  The three statistics of the dashboard and of
    [api_started_orders_kpis] are ordered: every repeated vehicle stands for
    two orders started today at least, and the orders started today are
    among the started orders, so
    [2 * repeated_vehicles_today <= today_started <= total_started]. *)
Theorem kpis_are_ordered (ctx : Ctx) (db : DB) :
  let kpis := api_started_orders_kpis ctx db in
  0 <= k_repeated_vehicles_today kpis /\
  2 * k_repeated_vehicles_today kpis <= k_today_started kpis /\
  k_today_started kpis <= k_total_started kpis /\
  started_orders_dashboard_statistics ctx db = kpis.
Proof.
  cbn [api_started_orders_kpis k_repeated_vehicles_today k_today_started
       k_total_started].
  unfold repeated_vehicles_today.
  destruct (repeated_groups (plates_today ctx db)) as [N I].
  pose proof (twice_each _ (plates_today ctx db) N (fun p Hp => proj1 (I p) Hp))
    as T.
  rewrite length_map in T.
  pose proof (length_plates_today ctx db) as L.
  assert (S : (List.length (started_today ctx db)
               <= List.length (started_orders ctx db))%nat)
    by apply filter_length_le.
  repeat split; try lia.
Qed.

(** *** The groups of the dashboard *)

(** [order.vehicle.plate_number if order.vehicle else 'Unknown'] *)
Definition plate_key (db : DB) (o : Order) : string :=
  match plate_of db o with
  | Some p => p
  | None => "Unknown"
  end.

(** One step of the grouping loop: [orders_by_plate[plate].append(order)],
    after [orders_by_plate[plate] = []] for a plate not yet there.  The
    Python dict is kept as the list of its items, in insertion order. *)
Fixpoint dict_append (k : string) (o : Order) (d : list (string * list Order))
  : list (string * list Order) :=
  match d with
  | [] => [(k, [o])]
  | (k', l) :: r =>
      if String.eqb k k' then (k', (l ++ [o])%list) :: r
      else (k', l) :: dict_append k o r
  end.

(** The [orders_by_plate] entry of the page context of
    [started_orders_dashboard], for the orders the page lists. *)
Definition orders_by_plate (db : DB) (listing : list Order)
  : list (string * list Order) :=
  fold_left (fun d o => dict_append (plate_key db o) o d) listing [].

(** The group of key [k] in the dict, empty when the key is not there. *)
Fixpoint group_of (k : string) (d : list (string * list Order)) : list Order :=
  match d with
  | [] => []
  | (k', l) :: r => if String.eqb k k' then l else group_of k r
  end.

Lemma group_of_dict_append (k k' : string) (o : Order)
      (d : list (string * list Order)) :
  group_of k' (dict_append k o d)
  = (group_of k' d ++ (if String.eqb k' k then [o] else []))%list.
Proof.
  induction d as [|[k0 l] r IH]; simpl.
  - destruct (String.eqb k' k); reflexivity.
  - destruct (String.eqb k k0) eqn:E; simpl.
    + apply String.eqb_eq in E. subst k0.
      destruct (String.eqb k' k); [reflexivity | rewrite app_nil_r; reflexivity].
    + destruct (String.eqb k' k0) eqn:E'.
      * apply String.eqb_eq in E'. subst k0.
        rewrite String.eqb_sym, E, app_nil_r. reflexivity.
      * exact IH.
Qed.

Lemma keys_dict_append (k k' : string) (o : Order) (d : list (string * list Order)) :
  In k' (map fst (dict_append k o d)) <-> k' = k \/ In k' (map fst d).
Proof.
  induction d as [|[k0 l] r IH]; simpl.
  - intuition congruence.
  - destruct (String.eqb k k0) eqn:E; simpl.
    + apply String.eqb_eq in E. subst k0. intuition congruence.
    + rewrite IH. intuition congruence.
Qed.

Lemma nodup_dict_append (k : string) (o : Order) (d : list (string * list Order)) :
  NoDup (map fst d) -> NoDup (map fst (dict_append k o d)).
Proof.
  induction d as [|[k0 l] r IH]; simpl; intros H.
  - constructor; [intros []| constructor].
  - inversion H as [|? ? Hnot Hr]; subst.
    destruct (String.eqb k k0) eqn:E; simpl.
    + constructor; assumption.
    + constructor; [|apply IH; assumption].
      rewrite keys_dict_append. intros [H0|H0]; [|contradiction].
      subst k0. rewrite String.eqb_refl in E. discriminate.
Qed.

Lemma orders_by_plate_fold (db : DB) (listing : list Order)
      (d : list (string * list Order)) :
  NoDup (map fst d) ->
  let d' := fold_left (fun d o => dict_append (plate_key db o) o d) listing d in
  NoDup (map fst d') /\
  (forall k, group_of k d'
             = (group_of k d
                  ++ filter (fun o => String.eqb k (plate_key db o)) listing)%list) /\
  (forall k, In k (map fst d') <->
             In k (map fst d) \/ exists o, In o listing /\ plate_key db o = k).
Proof.
  revert d. induction listing as [|o r IH]; intros d N; simpl.
  - split; [exact N|]. split.
    + intros k. rewrite app_nil_r. reflexivity.
    + intros k. split; [auto|]. intros [H|[o [[] _]]]. exact H.
  - destruct (IH (dict_append (plate_key db o) o d)
                 (nodup_dict_append _ o d N)) as [N' [G K]].
    split; [exact N'|]. split.
    + intros k. rewrite G, group_of_dict_append, <- app_assoc.
      destruct (String.eqb k (plate_key db o)); reflexivity.
    + intros k. rewrite K, keys_dict_append. split.
      * intros [[H|H]|[x [Hx Ex]]]; eauto.
      * intros [H|[x [[Hx|Hx] Ex]]]; subst; eauto.
Qed.

Lemma group_of_in (k : string) (l : list Order) (d : list (string * list Order)) :
  NoDup (map fst d) -> In (k, l) d -> group_of k d = l.
Proof.
  induction d as [|[k0 m] r IH]; simpl; intros N H; [contradiction|].
  inversion N as [|? ? Hnot Hr]; subst.
  destruct H as [H|H].
  - inversion H; subst. rewrite String.eqb_refl. reflexivity.
  - destruct (String.eqb k k0) eqn:E; [|auto].
    apply String.eqb_eq in E. subst k0. exfalso. apply Hnot.
    change k with (fst (k, l)). apply in_map. assumption.
Qed.

(** X16.  The dashboard's grouping by plate is a partition of the orders
    listed: each plate is the key of one group, and the group of a plate
    holds exactly the listed orders of that plate, in the order of the
    listing; an order without a vehicle goes to the group [Unknown].  No
    group is empty and no order is lost. *)
Theorem orders_by_plate_partitions (db : DB) (listing : list Order) :
  NoDup (map fst (orders_by_plate db listing)) /\
  (forall k l,
      In (k, l) (orders_by_plate db listing) <->
      l = filter (fun o => String.eqb k (plate_key db o)) listing /\ l <> []) /\
  (forall o, In o listing ->
             exists l, In (plate_key db o, l) (orders_by_plate db listing) /\
                       In o l).
Proof.
  unfold orders_by_plate.
  destruct (orders_by_plate_fold db listing [] (NoDup_nil _)) as [N [G K]].
  simpl in G, K.
  set (d := fold_left (fun d o => dict_append (plate_key db o) o d) listing [])
    in *.
  assert (Key : forall k,
             In k (map fst d) ->
             In (k, filter (fun o => String.eqb k (plate_key db o)) listing) d).
  { intros k Hk. apply in_map_iff in Hk. destruct Hk as [[k' l] [E H]].
    simpl in E. subst k'. rewrite <- (G k), (group_of_in k l d N H). exact H. }
  split; [exact N|]. split.
  - intros k l. split.
    + intros H. pose proof (group_of_in k l d N H) as E. rewrite G in E.
      split; [symmetry; exact E|].
      assert (Hk : In k (map fst d))
        by (change k with (fst (k, l)); apply in_map; exact H).
      apply K in Hk. destruct Hk as [[]|[o [Ho Eo]]].
      intros El. subst l.
      assert (Hin : In o (filter (fun o => String.eqb k (plate_key db o)) listing)).
      { apply filter_In. split; [exact Ho|]. rewrite Eo. apply String.eqb_refl. }
      rewrite El in Hin. exact Hin.
    + intros [E Hne]. subst l. apply Key. apply K. right.
      destruct (filter (fun o => String.eqb k (plate_key db o)) listing)
        as [|o r] eqn:F; [contradiction|].
      assert (Hin : In o (o :: r)) by (left; reflexivity).
      rewrite <- F in Hin. apply filter_In in Hin. destruct Hin as [Ho Eo].
      apply String.eqb_eq in Eo. exists o. auto.
  - intros o Ho. eexists. split.
    + apply Key. apply K. right. exists o. auto.
    + apply filter_In. split; [exact Ho | apply String.eqb_refl].
Qed.

Example orders_by_plate_busy_day :
  map (fun g => (fst g, map o_id (snd g)))
      (orders_by_plate KpiProofs.busy_day
         (orders KpiProofs.busy_day
            ++ [Sample.order 5 None "created" 1728000300 None None]))
  = [("ABC", [1; 3]); ("XYZ", [2; 4]); ("Unknown", [5])].
Proof. reflexivity. Qed.

End DashboardMore.

(* ------------------------------------------------------------------ *)
(** ** [api_check_plate] and [api_start_order] agree *)

Module ProbeProofs.

Import PyStr Query Views Facts.

Lemma latest_in (l : list Order) (o : Order) : latest l = Some o -> In o l.
Proof.
  revert o. induction l as [|x r IH]; intros o; simpl; [discriminate|].
  destruct (latest r) as [m|].
  - destruct (o_created_at m <=? o_created_at x); intros H; inversion H; subst;
      auto.
  - intros H. inversion H. auto.
Qed.

Lemma latest_none (l : list Order) : latest l = None -> l = [].
Proof.
  destruct l as [|x r]; [reflexivity|]. simpl.
  destruct (latest r) as [m|]; [destruct (o_created_at m <=? o_created_at x)|];
    discriminate.
Qed.

(** X17.  What [api_check_plate] finds is what an unconfirmed
    [api_start_order] for the same plate offers: when the plate is found
    with a customer and a vehicle, the start changes nothing and answers
    either with that customer and vehicle, when the vehicle has no order of
    status [created], or with an order of status [created] of that
    vehicle. *)
Theorem check_plate_agrees_with_start_order (ctx : Ctx) (data : StartOrderData)
        (db : DB) (c : Customer) (v : Vehicle) :
  api_check_plate ctx (so_plate_number data) db = PlateFound c v ->
  TwiceProofs.unconfirmed data ->
  In (default "service" (so_order_type data)) ["service"; "sales"; "inquiry"] ->
  snd (api_start_order ctx (Some data) db) = db /\
  ((created_orders_of db (v_id v) = [] /\
    fst (api_start_order ctx (Some data) db) = ExistingCustomer c v) \/
   (exists eo,
       In eo (orders db) /\ o_vehicle eo = Some (v_id v) /\
       o_status eo = "created" /\
       forall t, o_started_at eo = Some t ->
                 fst (api_start_order ctx (Some data) db)
                 = OrderStarted 200 (o_id eo) (o_order_number eo)
                                (upper (strip (or_empty (so_plate_number data))))
                                t true)).
Proof.
  intros Hc U Ht. unfold api_check_plate in Hc.
  destruct (truthy (upper (strip (or_empty (so_plate_number data))))) eqn:Tp;
    cbn [negb] in Hc; [|discriminate].
  destruct (first (vehicles_by_plate db
                     (upper (strip (or_empty (so_plate_number data))))
                     (user_branch ctx))) as [[v' c']|] eqn:F; [|discriminate].
  inversion Hc; subst c' v'. clear Hc.
  apply truthy_true in Tp.
  rewrite (TwiceProofs.start_order_probe ctx data db v c U Tp Ht F).
  split; [reflexivity|]. cbn [fst].
  destruct (latest (created_orders_of db (v_id v))) as [eo|] eqn:L.
  - right. exists eo. apply latest_in in L.
    unfold created_orders_of in L. apply filter_In in L.
    destruct L as [Hin Hp]. apply andb_true_iff in Hp. destruct Hp as [Hv Hs].
    apply InvariantProofs.vehicle_is_spec in Hv. apply String.eqb_eq in Hs.
    repeat split; auto.
    intros t Hstart. unfold started_response. rewrite Hstart. reflexivity.
  - left. split; [apply latest_none; exact L | reflexivity].
Qed.

Lemma check_plate_agrees_with_start_order_witness :
  snd (api_start_order Sample.ctx (Some Sample.start_abc) Sample.db_one_order)
  = Sample.db_one_order /\
  ((created_orders_of Sample.db_one_order (v_id Sample.car_abc) = [] /\
    fst (api_start_order Sample.ctx (Some Sample.start_abc) Sample.db_one_order)
    = ExistingCustomer Sample.alice Sample.car_abc) \/
   (exists eo,
       In eo (orders Sample.db_one_order) /\
       o_vehicle eo = Some (v_id Sample.car_abc) /\
       o_status eo = "created" /\
       forall t, o_started_at eo = Some t ->
                 fst (api_start_order Sample.ctx (Some Sample.start_abc)
                                      Sample.db_one_order)
                 = OrderStarted 200 (o_id eo) (o_order_number eo)
                     (upper (strip (or_empty (so_plate_number Sample.start_abc))))
                     t true)).
Proof.
  apply (check_plate_agrees_with_start_order Sample.ctx Sample.start_abc
           Sample.db_one_order Sample.alice Sample.car_abc).
  - reflexivity.
  - split; reflexivity.
  - simpl. auto.
Defined.

End ProbeProofs.

(* ------------------------------------------------------------------ *)
(** ** Keys and foreign keys *)

Module Integrity.

Import PyStr Query Services Views Facts ServiceFacts InvariantProofs
       StartOrderMore FormMore.

(** The keys of the three tables are unique, and every reference to a
    customer or a vehicle finds its row. *)
Definition consistent (db : DB) : Prop :=
  NoDup (map c_id (customers db)) /\
  NoDup (map v_id (vehicles db)) /\
  NoDup (map o_id (orders db)) /\
  (forall v, In v (vehicles db) ->
             exists c, In c (customers db) /\ c_id c = v_customer v) /\
  (forall o, In o (orders db) ->
             exists c, In c (customers db) /\ c_id c = o_customer o) /\
  (forall o k, In o (orders db) -> o_vehicle o = Some k ->
               exists v, In v (vehicles db) /\ v_id v = k).

Lemma nodup_snoc {A : Type} (l : list A) (a : A) :
  NoDup l -> ~ In a l -> NoDup (l ++ [a]).
Proof.
  induction l as [|x r IH]; simpl; intros N H.
  - constructor; [intros [] | constructor].
  - inversion N as [|? ? Hnot Hr]; subst. constructor.
    + intros Hin. apply in_app_or in Hin. destruct Hin as [Hin|[Hin|[]]].
      * contradiction.
      * subst. apply H. left. reflexivity.
    + apply IH; [assumption|]. intros Hin. apply H. right. assumption.
Qed.

Lemma nodup_fresh {A : Type} (pk : A -> Z) (l : list A) (x : A) :
  NoDup (map pk l) -> pk x = next_id pk l -> NoDup (map pk (l ++ [x])).
Proof.
  intros N E. rewrite map_app. apply nodup_snoc; [exact N|].
  simpl. rewrite E. intros Hin. apply in_map_iff in Hin.
  destruct Hin as [y [Ey Hy]]. apply (next_id_fresh pk) in Hy. lia.
Qed.

Lemma consistent_customer_service (db db' : DB) (b : Branch) (n p t : string)
      (ps org tax em ad : option string) (c : Customer) :
  consistent db ->
  create_or_get_customer db b n p t ps org tax em ad = (c, db') ->
  consistent db' /\ In c (customers db').
Proof.
  intros [Nc [Nv [No [Fv [Fc Fo]]]]] H.
  apply customer_service_frame in H.
  destruct H as [V [O [_ [_ [_ [_ [_ [[Hin E]|[E Hid]]]]]]]]].
  - subst db'. repeat split; auto.
  - assert (Grow : forall x, In x (customers db) -> In x (customers db'))
      by (intros x Hx; rewrite E; apply in_or_app; auto).
    split; [|rewrite E; apply in_or_app; right; left; reflexivity].
    unfold consistent. rewrite V, O.
    split; [rewrite E; apply nodup_fresh; assumption|].
    split; [exact Nv|]. split; [exact No|].
    split; [|split].
    + intros v Hv. destruct (Fv v Hv) as [c' [Hc' Ec']]. eauto.
    + intros o Ho. destruct (Fc o Ho) as [c' [Hc' Ec']]. eauto.
    + exact Fo.
Qed.

Lemma consistent_vehicle_service (db db' : DB) (c : Customer) (plate : string)
      (mk md : option string) (v : Vehicle) :
  consistent db -> In c (customers db) ->
  create_or_get_vehicle db c plate mk md = (v, db') ->
  consistent db' /\ In v (vehicles db') /\ In c (customers db').
Proof.
  intros [Nc [Nv [No [Fv [Fc Fo]]]]] Hc H.
  apply vehicle_service_frame in H.
  destruct H as [C [O [_ [_ [_ [_ [Vc [_ [[Hin E]|[E [Hid _]]]]]]]]]]].
  - subst db'. repeat split; auto.
  - split; [|split].
    + unfold consistent. rewrite C, O.
      split; [exact Nc|].
      split; [rewrite E; apply nodup_fresh; assumption|].
      split; [exact No|].
      split; [|split].
      * intros w Hw. rewrite E in Hw. apply in_app_or in Hw.
        destruct Hw as [Hw|[Hw|[]]]; [apply Fv; exact Hw|].
        subst w. exists c. auto.
      * exact Fc.
      * intros o k Ho Hk. destruct (Fo o k Ho Hk) as [w [Hw Ew]].
        exists w. split; [rewrite E; apply in_or_app; auto | exact Ew].
    + rewrite E. apply in_or_app. right. left. reflexivity.
    + rewrite C. exact Hc.
Qed.

Lemma consistent_add_order (db : DB) (c : Customer) (o : Order) :
  consistent db -> In c (customers db) -> o_customer o = c_id c ->
  o_id o = next_id o_id (orders db) ->
  (forall k, o_vehicle o = Some k -> exists v, In v (vehicles db) /\ v_id v = k) ->
  consistent (add_order db o).
Proof.
  intros [Nc [Nv [No [Fv [Fc Fo]]]]] Hc Ec Eid Hv.
  unfold consistent. cbn [add_order customers vehicles orders].
  split; [exact Nc|]. split; [exact Nv|].
  split; [apply nodup_fresh; assumption|].
  split; [exact Fv|]. split.
  - intros x Hx. apply in_app_or in Hx. destruct Hx as [Hx|[Hx|[]]]; [auto|].
    subst x. exists c. auto.
  - intros x k Hx Hk. apply in_app_or in Hx. destruct Hx as [Hx|[Hx|[]]].
    + apply (Fo x k Hx Hk).
    + subst x. apply Hv. exact Hk.
Qed.

(** Rewriting order rows keeps the keys consistent when each row keeps its
    key and still refers to a customer and a vehicle there are. *)
Lemma consistent_rewrite_orders (db db' : DB) (f : Order -> Order) :
  consistent db ->
  customers db' = customers db -> vehicles db' = vehicles db ->
  orders db' = map f (orders db) ->
  (forall x, In x (orders db) ->
             o_id (f x) = o_id x /\
             (exists c, In c (customers db) /\ c_id c = o_customer (f x)) /\
             (forall k, o_vehicle (f x) = Some k ->
                        exists v, In v (vehicles db) /\ v_id v = k)) ->
  consistent db'.
Proof.
  intros [Nc [Nv [No [Fv [Fc Fo]]]]] C V O H.
  unfold consistent. rewrite C, V, O.
  split; [exact Nc|]. split; [exact Nv|]. split; [|split; [exact Fv|split]].
  - rewrite map_map.
    replace (map (fun x => o_id (f x)) (orders db)) with (map o_id (orders db));
      [exact No|].
    apply map_ext_in. intros x Hx. symmetry. apply (H x Hx).
  - intros y Hy. apply in_map_iff in Hy. destruct Hy as [x [E Hx]]. subst y.
    apply (H x Hx).
  - intros y k Hy Hk. apply in_map_iff in Hy. destruct Hy as [x [E Hx]]. subst y.
    apply (H x Hx). exact Hk.
Qed.

Lemma consistent_save_order (db : DB) (o' : Order) :
  consistent db ->
  (exists c, In c (customers db) /\ c_id c = o_customer o') ->
  (forall k, o_vehicle o' = Some k -> exists v, In v (vehicles db) /\ v_id v = k) ->
  consistent (save_order db o').
Proof.
  intros Hdb Hc Hv.
  apply (consistent_rewrite_orders db (save_order db o')
           (fun x => if o_id x =? o_id o' then o' else x) Hdb);
    try reflexivity.
  intros x Hx. destruct Hdb as [_ [_ [_ [_ [Fc Fo]]]]].
  destruct (o_id x =? o_id o') eqn:E.
  - apply Z.eqb_eq in E. auto.
  - split; [reflexivity|]. split; [apply Fc; exact Hx|].
    intros k Hk. apply (Fo x k Hx Hk).
Qed.

Lemma consistent_start_customer (ctx : Ctx) (data : StartOrderData)
      (plate : string) (db db1 : DB) (c : Customer) :
  consistent db ->
  start_order_customer ctx data plate db = Some (c, db1) ->
  consistent db1 /\ In c (customers db1).
Proof.
  intros Hdb. unfold start_order_customer.
  destruct (so_use_existing_customer data
            && truthy_int (so_existing_customer_id data)).
  - destruct (customer_in_branch _ _ _) as [c0|] eqn:F; [|discriminate].
    intros H. inversion H; subst.
    apply customer_in_branch_some in F. tauto.
  - intros H. inversion H as [H1].
    apply (consistent_customer_service _ _ _ _ _ _ _ _ _ _ _ _ Hdb H1).
Qed.

Lemma consistent_form_customer (ctx : Ctx) (form : Form) (d : string)
      (db db1 : DB) (c : Customer) :
  consistent db ->
  form_customer ctx form d db = (c, db1) ->
  consistent db1 /\ In c (customers db1).
Proof.
  intros Hdb. unfold form_customer.
  destruct (String.eqb _ "personal"); intros H;
    apply (consistent_customer_service _ _ _ _ _ _ _ _ _ _ _ _ Hdb H).
Qed.

Lemma consistent_form_vehicle (form : Form) (c : Customer) (db1 db2 : DB)
      (ov : option Vehicle) :
  consistent db1 -> In c (customers db1) ->
  form_vehicle form c db1 = (ov, db2) ->
  consistent db2 /\ In c (customers db2) /\
  (forall v, ov = Some v -> In v (vehicles db2)).
Proof.
  intros Hdb Hc. unfold form_vehicle.
  destruct (truthy _).
  - destruct (create_or_get_vehicle _ _ _ _ _) as [v db'] eqn:V.
    intros H. inversion H; subst.
    destruct (consistent_vehicle_service _ _ _ _ _ _ _ Hdb Hc V) as [H1 [H2 H3]].
    split; [exact H1|]. split; [exact H3|].
    intros w E. inversion E; subst. exact H2.
  - intros H. inversion H; subst.
    split; [exact Hdb|]. split; [exact Hc|]. discriminate.
Qed.

(** X18.  The two views that create orders keep the keys of the
    database consistent: after [api_start_order] and after
    [api_create_order_from_modal] the keys of customers, vehicles and
    orders are still unique, every vehicle has its customer, and every
    order its customer and, when it names one, its vehicle. *)
Theorem creating_views_keep_keys_consistent (ctx : Ctx) (db : DB) :
  consistent db ->
  (forall body, consistent (snd (api_start_order ctx body db))) /\
  (forall form, consistent (snd (api_create_order_from_modal ctx form db))).
Proof.
  intros Hdb. split.
  - intros [data|]; [|exact Hdb].
    destruct (start_order_early_or_commit ctx data db)
      as [[r [E _]]|[_ [_ E]]]; rewrite E; [exact Hdb|].
    destruct (start_order_commit_outcome ctx data (plate_of_request data)
                (type_of_request data) db)
      as [[_ O]|[c [db1 [v [db2 [R [V O]]]]]]]; [rewrite O; exact Hdb|].
    destruct (consistent_start_customer _ _ _ _ _ _ Hdb R) as [H1 Hc1].
    destruct (consistent_vehicle_service _ _ _ _ _ _ _ H1 Hc1 V) as [H2 [Hv Hc2]].
    destruct O as [[eo [_ O]]|[_ O]]; rewrite O; cbn [snd]; [exact H2|].
    apply (consistent_add_order db2 c); auto.
    intros k Hk. cbn in Hk. inversion Hk; subst. eauto.
  - intros form. unfold api_create_order_from_modal.
    destruct (validate_modal form); [exact Hdb|].
    destruct (form_customer ctx form "personal" db) as [c db1] eqn:C.
    destruct (form_vehicle form c db1) as [ov db2] eqn:V.
    destruct (consistent_form_customer _ _ _ _ _ _ Hdb C) as [H1 Hc1].
    destruct (consistent_form_vehicle _ _ _ _ _ H1 Hc1 V) as [H2 [Hc2 Hv]].
    cbn [snd]. apply (consistent_add_order db2 c); auto.
    intros k Hk. cbn in Hk. destruct ov as [v|]; [|discriminate].
    inversion Hk; subst. exists v. split; [apply Hv|]; reflexivity.
Qed.

Lemma creating_views_keep_keys_consistent_witness :
  (forall body,
      consistent (snd (api_start_order Sample.ctx body Sample.db_one_order))) /\
  (forall form,
      consistent (snd (api_create_order_from_modal Sample.ctx form
                         Sample.db_one_order))).
Proof.
  apply (creating_views_keep_keys_consistent Sample.ctx Sample.db_one_order).
  unfold consistent. simpl.
  split; [repeat constructor; simpl; intuition discriminate|].
  split; [repeat constructor; simpl; intuition discriminate|].
  split; [repeat constructor; simpl; intuition discriminate|].
  split; [|split].
  - intros v [H|[H|[H|[]]]]; subst v; simpl; eauto 6.
  - intros o [H|[]]; subst o; simpl; eauto.
  - intros o k [H|[]] E; subst o; simpl in E; inversion E; subst; eauto.
Defined.

Lemma update_order_details_refs (db : DB) (o : Order) (services : list string)
      (est item_id item_quantity : option string) :
  let o' := update_order_details db o services est item_id item_quantity in
  o_id o' = o_id o /\ o_customer o' = o_customer o /\
  o_vehicle o' = o_vehicle o /\ o_branch o' = o_branch o.
Proof.
  unfold update_order_details, update_item.
  destruct (String.eqb (o_type o) "sales" && truthy (or_empty item_id));
    [destruct (parse_int (or_empty item_id));
     [destruct (find _ (inventory_items db))|]|];
    destruct (nonempty services);
    destruct (truthy (or_empty est));
    try destruct (parse_int (or_empty est));
    repeat split; reflexivity.
Qed.

(** X19.  The views that rewrite an order keep the keys of the database
    consistent: [api_update_order_from_extraction], which may give the
    order another customer and vehicle, [api_record_overrun_reason] and
    the two actions of [started_order_detail]. *)
Theorem rewriting_views_keep_keys_consistent (ctx : Ctx) (db : DB) :
  consistent db ->
  (forall form,
      consistent (snd (api_update_order_from_extraction ctx form db))) /\
  (forall body k,
      consistent (snd (api_record_overrun_reason ctx body k db))) /\
  (forall k action,
      match started_order_detail ctx k action db with
      | Some (_, db') => consistent db'
      | None => True
      end).
Proof.
  intros Hdb. split; [|split].
  - intros form. unfold api_update_order_from_extraction.
    destruct (negb (truthy _)); [exact Hdb|].
    destruct (parse_int _) as [k|]; [|exact Hdb].
    destruct (order_in_branch db k (user_branch ctx)) as [order|] eqn:F;
      [|exact Hdb].
    destruct (validate_extraction form); [exact Hdb|].
    destruct (form_customer ctx form "" db) as [c db1] eqn:C.
    destruct (form_vehicle form c db1) as [ov db2] eqn:V.
    cbn [snd].
    destruct (consistent_form_customer _ _ _ _ _ _ Hdb C) as [H1 Hc1].
    destruct (consistent_form_vehicle _ _ _ _ _ H1 Hc1 V) as [H2 [Hc2 Hv]].
    apply consistent_save_order;
      [exact H2 | exists c; split; [exact Hc2 | reflexivity] |].
    cbn [with_merge o_vehicle]. intros k' Hk.
    destruct ov as [v|].
    + inversion Hk; subst. exists v. split; [apply Hv|]; reflexivity.
    + apply FormProofs.order_in_branch_in in F. destruct F as [Hin _].
      apply form_customer_frame in C. destruct C as [_ [O1 _]].
      apply form_vehicle_frame in V. destruct V as [_ [O2 _]].
      destruct H2 as [_ [_ [_ [_ [_ Fo]]]]].
      apply (Fo order k'); [|exact Hk]. rewrite O2, O1. exact Hin.
  - intros body k. unfold api_record_overrun_reason.
    destruct body as [data|]; [|exact Hdb].
    destruct (negb (truthy _)); [exact Hdb|].
    destruct (order_in_branch db k (user_branch ctx)) as [order|];
      [|exact Hdb].
    cbn [snd]. unfold save_overrun_fields.
    eapply consistent_rewrite_orders with (db := db);
      [exact Hdb | reflexivity | reflexivity | cbn [orders]; reflexivity |].
    intros x Hx. destruct Hdb as [_ [_ [_ [_ [Fc Fo]]]]]. cbn beta.
    destruct (o_id x =? _); cbn [o_id o_customer o_vehicle];
      (split; [reflexivity|]; split; [apply Fc; exact Hx|];
       intros k' Hk; apply (Fo x k' Hx Hk)).
  - intros k action.
    destruct (started_order_detail ctx k action db) as [[r db']|] eqn:H;
      [|exact I].
    apply LifecycleProofs.started_order_detail_some in H.
    destruct H as [order [_ [Hin [_ [_ H]]]]].
    pose proof Hdb as [_ [_ [_ [_ [Fc Fo]]]]].
    destruct action as [services est item_id item_quantity|]; subst db';
      apply consistent_save_order; try exact Hdb.
    + destruct (update_order_details_refs db order services est item_id
                  item_quantity) as [_ [Ec _]].
      rewrite Ec. apply Fc. exact Hin.
    + destruct (update_order_details_refs db order services est item_id
                  item_quantity) as [_ [_ [Ev _]]].
      rewrite Ev. intros k' Hk. apply (Fo order k' Hin Hk).
    + cbn [with_completion o_customer]. apply Fc. exact Hin.
    + cbn [with_completion o_vehicle]. intros k' Hk. apply (Fo order k' Hin Hk).
Qed.

Lemma rewriting_views_keep_keys_consistent_witness :
  (forall form,
      consistent (snd (api_update_order_from_extraction Sample.ctx form
                         Sample.db_one_order))) /\
  (forall body k,
      consistent (snd (api_record_overrun_reason Sample.ctx body k
                         Sample.db_one_order))) /\
  (forall k action,
      match started_order_detail Sample.ctx k action Sample.db_one_order with
      | Some (_, db') => consistent db'
      | None => True
      end).
Proof.
  apply (rewriting_views_keep_keys_consistent Sample.ctx Sample.db_one_order).
  unfold consistent. simpl.
  split; [repeat constructor; simpl; intuition discriminate|].
  split; [repeat constructor; simpl; intuition discriminate|].
  split; [repeat constructor; simpl; intuition discriminate|].
  split; [|split].
  - intros v [H|[H|[H|[]]]]; subst v; simpl; eauto 6.
  - intros o [H|[]]; subst o; simpl; eauto.
  - intros o k [H|[]] E; subst o; simpl in E; inversion E; subst; eauto.
Defined.

End Integrity.

(* ------------------------------------------------------------------ *)
(** ** The rows of the other branches *)
(* ------------------------------------------------------------------ *)

Module BranchProofs.
Import PyStr Query Services Views Facts ServiceFacts StartOrderMore.

Local Open Scope Z_scope.
Local Open Scope string_scope.

(** The customers and orders that are not of the user's branch, in the
    order of their tables. *)
Definition foreign_customer (ctx : Ctx) (c : Customer) : bool :=
  negb (branch_eqb (c_branch c) (user_branch ctx)).

Definition foreign_order (ctx : Ctx) (o : Order) : bool :=
  negb (branch_eqb (o_branch o) (user_branch ctx)).

Definition foreign_rows (ctx : Ctx) (db : DB) : list Customer * list Order :=
  (filter (foreign_customer ctx) (customers db),
   filter (foreign_order ctx) (orders db)).

Lemma filter_map_same {A : Type} (p : A -> bool) (f : A -> A) (l : list A) :
  (forall x, In x l -> f x = x \/ (p (f x) = false /\ p x = false)) ->
  filter p (map f l) = filter p l.
Proof.
  induction l as [|x r IH]; simpl; intros H; [reflexivity|].
  rewrite (IH (fun y Hy => H y (or_intror Hy))).
  destruct (H x (or_introl eq_refl)) as [E|[E1 E2]].
  - rewrite E. reflexivity.
  - rewrite E1, E2. reflexivity.
Qed.

Lemma foreign_customer_service (ctx : Ctx) (db db' : DB) (n p t : string)
      (ps org tax em ad : option string) (c : Customer) :
  create_or_get_customer db (user_branch ctx) n p t ps org tax em ad = (c, db') ->
  foreign_rows ctx db' = foreign_rows ctx db.
Proof.
  intros H. apply customer_service_frame in H.
  destruct H as [_ [O [_ [_ [_ [_ [B [[_ E]|[E _]]]]]]]]].
  - rewrite E. reflexivity.
  - unfold foreign_rows. rewrite O, E, filter_app. cbn [filter].
    unfold foreign_customer at 2. rewrite B, branch_eqb_refl. cbn [negb].
    rewrite app_nil_r. reflexivity.
Qed.

Lemma foreign_vehicle_service (ctx : Ctx) (db db' : DB) (c : Customer)
      (plate : string) (mk md : option string) (v : Vehicle) :
  create_or_get_vehicle db c plate mk md = (v, db') ->
  foreign_rows ctx db' = foreign_rows ctx db.
Proof.
  intros H. apply vehicle_service_frame in H. destruct H as [C [O _]].
  unfold foreign_rows. rewrite C, O. reflexivity.
Qed.

Lemma foreign_form_customer (ctx : Ctx) (form : Form) (d : string)
      (db db1 : DB) (c : Customer) :
  form_customer ctx form d db = (c, db1) ->
  foreign_rows ctx db1 = foreign_rows ctx db.
Proof.
  unfold form_customer.
  destruct (String.eqb _ "personal"); intros H;
    apply (foreign_customer_service _ _ _ _ _ _ _ _ _ _ _ _ H).
Qed.

Lemma foreign_form_vehicle (ctx : Ctx) (form : Form) (c : Customer)
      (db1 db2 : DB) (ov : option Vehicle) :
  form_vehicle form c db1 = (ov, db2) ->
  foreign_rows ctx db2 = foreign_rows ctx db1.
Proof.
  intros H. apply form_vehicle_frame in H. destruct H as [C [O _]].
  unfold foreign_rows. rewrite C, O. reflexivity.
Qed.

Lemma foreign_add_order (ctx : Ctx) (db : DB) (o : Order) :
  o_branch o = user_branch ctx ->
  foreign_rows ctx (add_order db o) = foreign_rows ctx db.
Proof.
  intros B. unfold foreign_rows, add_order. cbn [customers orders].
  rewrite filter_app. cbn [filter]. unfold foreign_order at 2.
  rewrite B, branch_eqb_refl. cbn [negb]. rewrite app_nil_r. reflexivity.
Qed.

Lemma foreign_save_order (ctx : Ctx) (db : DB) (order o' : Order) :
  NoDup (map o_id (orders db)) ->
  In order (orders db) -> o_branch order = user_branch ctx ->
  o_id o' = o_id order -> o_branch o' = user_branch ctx ->
  foreign_rows ctx (save_order db o') = foreign_rows ctx db.
Proof.
  intros N Hin B Ek B'. unfold foreign_rows, save_order. cbn [customers orders].
  f_equal. apply filter_map_same. intros x Hx.
  destruct (o_id x =? o_id o')%Z eqn:E; [|left; reflexivity].
  right. apply Z.eqb_eq in E. rewrite Ek in E.
  rewrite (LifecycleProofs.same_key_same_row (orders db) x order N Hx Hin E).
  unfold foreign_order. rewrite B, B', branch_eqb_refl. split; reflexivity.
Qed.

(** X20.  No view writes to another branch.  On a database whose order
    keys are unique, the customers and the orders of the branches other
    than the user's are the same, row for row, after each of the five
    views that write: [api_start_order], [api_create_order_from_modal],
    [api_update_order_from_extraction], [api_record_overrun_reason] and
    [started_order_detail]. *)
Theorem views_leave_other_branches (ctx : Ctx) (db : DB) :
  NoDup (map o_id (orders db)) ->
  (forall body,
      foreign_rows ctx (snd (api_start_order ctx body db)) = foreign_rows ctx db) /\
  (forall form,
      foreign_rows ctx (snd (api_create_order_from_modal ctx form db))
      = foreign_rows ctx db) /\
  (forall form,
      foreign_rows ctx (snd (api_update_order_from_extraction ctx form db))
      = foreign_rows ctx db) /\
  (forall body k,
      foreign_rows ctx (snd (api_record_overrun_reason ctx body k db))
      = foreign_rows ctx db) /\
  (forall k action,
      match started_order_detail ctx k action db with
      | Some (_, db') => foreign_rows ctx db' = foreign_rows ctx db
      | None => True
      end).
Proof.
  intros N. split; [|split; [|split; [|split]]].
  - intros [data|]; [|reflexivity].
    destruct (start_order_early_or_commit ctx data db)
      as [[r [E _]]|[_ [_ E]]]; rewrite E; [reflexivity|].
    destruct (start_order_commit_outcome ctx data (plate_of_request data)
                (type_of_request data) db)
      as [[_ O]|[c [db1 [v [db2 [R [V O]]]]]]]; [rewrite O; reflexivity|].
    assert (F1 : foreign_rows ctx db1 = foreign_rows ctx db).
    { revert R. unfold start_order_customer.
      destruct (so_use_existing_customer data
                && truthy_int (so_existing_customer_id data)).
      - destruct (customer_in_branch _ _ _); [|discriminate].
        intros H. inversion H; subst. reflexivity.
      - intros H. inversion H as [H1].
        apply (foreign_customer_service _ _ _ _ _ _ _ _ _ _ _ _ H1). }
    pose proof (foreign_vehicle_service ctx _ _ _ _ _ _ _ V) as F2.
    destruct O as [[eo [_ O]]|[_ O]]; rewrite O; cbn [snd].
    + rewrite F2. exact F1.
    + rewrite foreign_add_order; [|reflexivity]. rewrite F2. exact F1.
  - intros form. unfold api_create_order_from_modal.
    destruct (validate_modal form); [reflexivity|].
    destruct (form_customer ctx form "personal" db) as [c db1] eqn:C.
    destruct (form_vehicle form c db1) as [ov db2] eqn:V.
    cbn [snd]. rewrite foreign_add_order; [|reflexivity].
    rewrite (foreign_form_vehicle ctx _ _ _ _ _ V).
    apply (foreign_form_customer ctx _ _ _ _ _ C).
  - intros form. unfold api_update_order_from_extraction.
    destruct (negb (truthy _)); [reflexivity|].
    destruct (parse_int _) as [k|]; [|reflexivity].
    destruct (order_in_branch db k (user_branch ctx)) as [order|] eqn:F;
      [|reflexivity].
    destruct (validate_extraction form); [reflexivity|].
    destruct (form_customer ctx form "" db) as [c db1] eqn:C.
    destruct (form_vehicle form c db1) as [ov db2] eqn:V.
    cbn [snd].
    apply FormProofs.order_in_branch_in in F. destruct F as [Hin [_ B]].
    pose proof (form_customer_frame _ _ _ _ _ _ C) as [_ [O1 _]].
    pose proof (form_vehicle_frame _ _ _ _ _ V) as [_ [O2 _]].
    rewrite (foreign_save_order ctx db2 order).
    + rewrite (foreign_form_vehicle ctx _ _ _ _ _ V).
      apply (foreign_form_customer ctx _ _ _ _ _ C).
    + rewrite O2, O1. exact N.
    + rewrite O2, O1. exact Hin.
    + exact B.
    + reflexivity.
    + exact B.
  - intros body k. unfold api_record_overrun_reason.
    destruct body as [data|]; [|reflexivity].
    destruct (negb (truthy _)); [reflexivity|].
    destruct (order_in_branch db k (user_branch ctx)) as [order|] eqn:F;
      [|reflexivity].
    apply FormProofs.order_in_branch_in in F. destruct F as [Hin [_ B]].
    cbn [snd]. unfold foreign_rows, save_overrun_fields. cbn [customers orders].
    f_equal. apply filter_map_same. intros x Hx.
    destruct (o_id x =? _)%Z eqn:E; [|left; reflexivity].
    right. apply Z.eqb_eq in E. cbn [with_overrun o_id] in E.
    rewrite (LifecycleProofs.same_key_same_row (orders db) x order N Hx Hin E).
    unfold foreign_order. cbn [o_branch].
    rewrite B, branch_eqb_refl. split; reflexivity.
  - intros k action.
    destruct (started_order_detail ctx k action db) as [[r db']|] eqn:H;
      [|exact I].
    apply LifecycleProofs.started_order_detail_some in H.
    destruct H as [order [_ [Hin [_ [B H]]]]].
    destruct action as [services est item_id item_quantity|]; subst db';
      apply (foreign_save_order ctx db order); auto.
    + apply Integrity.update_order_details_refs.
    + destruct (Integrity.update_order_details_refs db order services est
                  item_id item_quantity) as [_ [_ [_ Eb]]].
      rewrite Eb. exact B.
Qed.

Lemma views_leave_other_branches_witness :
  (forall body,
      foreign_rows Sample.ctx (snd (api_start_order Sample.ctx body Sample.db_one_order))
      = foreign_rows Sample.ctx Sample.db_one_order) /\
  (forall form,
      foreign_rows Sample.ctx
        (snd (api_create_order_from_modal Sample.ctx form Sample.db_one_order))
      = foreign_rows Sample.ctx Sample.db_one_order) /\
  (forall form,
      foreign_rows Sample.ctx
        (snd (api_update_order_from_extraction Sample.ctx form Sample.db_one_order))
      = foreign_rows Sample.ctx Sample.db_one_order) /\
  (forall body k,
      foreign_rows Sample.ctx
        (snd (api_record_overrun_reason Sample.ctx body k Sample.db_one_order))
      = foreign_rows Sample.ctx Sample.db_one_order) /\
  (forall k action,
      match started_order_detail Sample.ctx k action Sample.db_one_order with
      | Some (_, db') =>
          foreign_rows Sample.ctx db' = foreign_rows Sample.ctx Sample.db_one_order
      | None => True
      end).
Proof.
  apply (views_leave_other_branches Sample.ctx Sample.db_one_order).
  simpl. repeat constructor; simpl; intuition discriminate.
Defined.

End BranchProofs.
